(** * LiteWebAgent: page snapshot extraction and save_file

    A shallow embedding of

      - [backend/api/litewebagent/tools/webscraping.py]
      - [backend/api/litewebagent/tools/save_file.py]
      - [litewebagent/webagent_utils_sync/tools/save_file.py]

    Python [str] values are modelled as [string], a character being one of
    the code points 0 to 255; whitespace and case mapping are those of
    [str.isspace] and [str.lower] on these code points.  Exceptions are values
    of [exn] returned through [result]; the file system, the browser page and
    the generative backend are explicit arguments. *)

From Stdlib Require Import Ascii Bool Arith Lia.
From Stdlib Require String.
From stdpp Require Import base option list gmap strings.

Set Default Proof Using "Type".

(** ** Python built-ins on [str] *)

Module Py.

(** [c.isspace()]: the controls 9 to 13 and 28 to 31, the space, the next
    line control (133) and the no-break space (160). *)
Definition is_space (c : ascii) : bool :=
  let n := nat_of_ascii c in
  ((9 <=? n) && (n <=? 13)) || ((28 <=? n) && (n <=? 32))
  || (n =? 133) || (n =? 160).

(** [c.lower()]: the letters A to Z, and the accented capitals 192 to 222
    but for the multiplication sign (215). *)
Definition lower_char (c : ascii) : ascii :=
  let n := nat_of_ascii c in
  if ((65 <=? n) && (n <=? 90)) || ((192 <=? n) && (n <=? 222) && negb (n =? 215))
  then ascii_of_nat (n + 32) else c.

(** [s.lower()] *)
Fixpoint lower (s : string) : string :=
  match s with
  | EmptyString => EmptyString
  | String c s' => String (lower_char c) (lower s')
  end.

(** [bool(s)] *)
Definition truthy (s : string) : bool :=
  match s with EmptyString => false | String _ _ => true end.

(** [s.lstrip()] *)
Fixpoint lstrip (s : string) : string :=
  match s with
  | EmptyString => EmptyString
  | String c s' => if is_space c then lstrip s' else s
  end.

(** [s.rstrip()] *)
Fixpoint rstrip (s : string) : string :=
  match s with
  | EmptyString => EmptyString
  | String c s' =>
      let r := rstrip s' in
      if is_space c && negb (truthy r) then EmptyString else String c r
  end.

(** [s.strip()] *)
Definition strip (s : string) : string := rstrip (lstrip s).

(** [s.startswith(p)] *)
Fixpoint startswith (p s : string) : bool :=
  match p, s with
  | EmptyString, _ => true
  | String a p', String b s' => if decide (a = b) then startswith p' s' else false
  | String _ _, EmptyString => false
  end.

(** [sub in s] *)
Fixpoint contains (sub s : string) : bool :=
  startswith sub s ||
  match s with
  | EmptyString => false
  | String _ s' => contains sub s'
  end.

(** [s.endswith(c)] for a one-character suffix. *)
Fixpoint endswith_char (c : ascii) (s : string) : bool :=
  match s with
  | EmptyString => false
  | String a EmptyString => if decide (a = c) then true else false
  | String _ s' => endswith_char c s'
  end.

(** [s[:n]] *)
Fixpoint take (n : nat) (s : string) : string :=
  match n, s with
  | S n', String c s' => String c (take n' s')
  | _, _ => EmptyString
  end.

(** [s[n:]] *)
Fixpoint drop (n : nat) (s : string) : string :=
  match n, s with
  | S n', String _ s' => drop n' s'
  | _, _ => s
  end.

(** [''.join(l)] *)
Fixpoint concat (l : list string) : string :=
  match l with
  | [] => EmptyString
  | s :: l' => s +:+ concat l'
  end.

(** [sep.join(l)] *)
Fixpoint join (sep : string) (l : list string) : string :=
  match l with
  | [] => EmptyString
  | [s] => s
  | s :: l' => s +:+ sep +:+ join sep l'
  end.

(** [s.split(c)] for a one-character separator. *)
Fixpoint split (c : ascii) (s : string) : list string :=
  match s with
  | EmptyString => [EmptyString]
  | String a s' =>
      if decide (a = c) then EmptyString :: split c s'
      else match split c s' with
           | [] => [String a EmptyString]
           | w :: ws => String a w :: ws
           end
  end.

(** [s.find(c)] for a one-character needle; [None] stands for [-1]. *)
Fixpoint find (c : ascii) (s : string) : option nat :=
  match s with
  | EmptyString => None
  | String a s' => if decide (a = c) then Some 0 else S <$> find c s'
  end.

(** [s.rfind(c)] for a one-character needle; [None] stands for [-1]. *)
Fixpoint rfind (c : ascii) (s : string) : option nat :=
  match s with
  | EmptyString => None
  | String a s' =>
      match rfind c s' with
      | Some i => Some (S i)
      | None => if decide (a = c) then Some 0 else None
      end
  end.

End Py.

(** ** Exceptions and results *)

(** The two classes of exception the code tells apart: Playwright's
    [TimeoutError], and every other subclass of [Exception] (with its class
    name).  Messages of built-in exceptions are abbreviated. *)
Inductive exn :=
| PlaywrightTimeoutError (msg : string)
| Exception (cls msg : string).

(** [str(e)] *)
Definition str_exn (e : exn) : string :=
  match e with
  | PlaywrightTimeoutError msg => msg
  | Exception _ msg => msg
  end.

Inductive result (A : Type) :=
| Return (a : A)
| Raise (e : exn).
Arguments Return {A} a.
Arguments Raise {A} e.

Definition bind {A B} (r : result A) (k : A -> result B) : result B :=
  match r with
  | Return a => k a
  | Raise e => Raise e
  end.

Notation "'let*' x := r 'in' k" := (bind r (fun x => k))
  (at level 10, x name, r at level 100, k at level 200).

(** ** Markup trees (BeautifulSoup with the html.parser builder)

    The tree that [BeautifulSoup(page_content, 'html.parser')] builds: text
    nodes and tags.  The builder stores [class] as a list of tokens and every
    other attribute the code reads ([id], [role], [href], [name], [property],
    [content]) as a [str].  Tag and attribute names are lower case.  The
    [BeautifulSoup] object itself is the list of its top-level nodes. *)

#[warnings="-register-all"] Inductive node :=
| NavigableString (s : string)
| Tag (name : string) (attrs : list (string * string)) (class_ : list string)
      (contents : list node).

Definition soup := list node.

Definition str_in (x : string) (l : list string) : bool := bool_decide (x ∈ l).

Module Bs4.

(** [child.name]: [None] on a text node. *)
Definition name (n : node) : option string :=
  match n with
  | NavigableString _ => None
  | Tag nm _ _ _ => Some nm
  end.

(** [tag.get(k)] for an attribute other than [class]. *)
Fixpoint lookup_attr (k : string) (attrs : list (string * string)) : option string :=
  match attrs with
  | [] => None
  | (k', v) :: attrs' => if decide (k' = k) then Some v else lookup_attr k attrs'
  end.

Definition get (k : string) (n : node) : option string :=
  match n with
  | NavigableString _ => None
  | Tag _ attrs _ _ => lookup_attr k attrs
  end.

(** [tag.get('class', [])] *)
Definition get_class (n : node) : list string :=
  match n with
  | NavigableString _ => []
  | Tag _ _ cls _ => cls
  end.

(** [tag.children] *)
Definition children (n : node) : list node :=
  match n with
  | NavigableString _ => []
  | Tag _ _ _ cs => cs
  end.

(** The text nodes below a node, in document order. *)
Fixpoint strings (n : node) : list string :=
  match n with
  | NavigableString s => [s]
  | Tag _ _ _ cs => flat_map strings cs
  end.

(** [tag.get_text()], also [tag.text] *)
Definition get_text (n : node) : string := Py.concat (strings n).

(** [tag.get_text(strip=True)]: every text node is stripped, the empty ones
    are dropped. *)
Definition get_text_strip (n : node) : string :=
  Py.concat (filter (fun s => Py.truthy s) (Py.strip <$> strings n)).

(** Every tag below (and including) a node in document order, each with its
    ancestors, nearest first: what [find_all(True)] iterates over, and
    [tag.parents] for each of them. *)
Fixpoint walk (parents : list node) (n : node) : list (node * list node) :=
  match n with
  | NavigableString _ => []
  | Tag _ _ _ cs => (n, parents) :: flat_map (walk (n :: parents)) cs
  end.

Definition walk_soup (sp : soup) : list (node * list node) :=
  flat_map (walk []) sp.

(** [soup.find_all(True)] *)
Definition find_all_tags (sp : soup) : list node := fst <$> walk_soup sp.

(** [soup.find_all(names)] *)
Definition find_all (names : list string) (sp : soup) : list node :=
  filter (fun n => match name n with
                   | Some nm => str_in nm names
                   | None => false
                   end = true) (find_all_tags sp).

(** How bs4 matches a keyword argument against an attribute: a [str]
    attribute by equality; [class] when one of its tokens is the value, or
    when the tokens joined by a space are. *)
Definition attr_matches (k v : string) (n : node) : bool :=
  if decide (k = "class") then
    match n with
    | NavigableString _ => false
    | Tag _ _ cls _ =>
        match cls with
        | [] => false
        | _ => str_in v cls || bool_decide (Py.join " " cls = v)
        end
    end
  else bool_decide (get k n = Some v).

(** [soup.find] with the single keyword argument [k=v] *)
Definition find_attr (k v : string) (sp : soup) : option node :=
  head (filter (fun n => attr_matches k v n = true) (find_all_tags sp)).

(** [soup.find(name)] *)
Definition find (nm : string) (sp : soup) : option node :=
  head (find_all [nm] sp).

End Bs4.

(** ** urllib.parse

    [urlparse(url).scheme] and [urlparse(url).hostname] as CPython computes
    them; the query, the fragment and the parameters, which the code never
    reads, stay in [rest].  The validation of a bracketed IP literal that
    recent releases add (a [ValueError] on an ill-formed one) is left out. *)

Module Urllib.

Definition is_alpha (c : ascii) : bool :=
  let n := nat_of_ascii c in
  ((65 <=? n) && (n <=? 90)) || ((97 <=? n) && (n <=? 122)).

Definition is_digit (c : ascii) : bool :=
  let n := nat_of_ascii c in (48 <=? n) && (n <=? 57).

(** [c in scheme_chars] *)
Definition scheme_char (c : ascii) : bool :=
  is_alpha c || is_digit c || bool_decide (c ∈ ["+"; "-"; "."]%char).

Fixpoint all_chars (f : ascii -> bool) (s : string) : bool :=
  match s with
  | EmptyString => true
  | String c s' => f c && all_chars f s'
  end.

Fixpoint has_char (c : ascii) (s : string) : bool :=
  match s with
  | EmptyString => false
  | String a s' => bool_decide (a = c) || has_char c s'
  end.

(** Leading C0 control characters and spaces are stripped. *)
Fixpoint lstrip_c0 (s : string) : string :=
  match s with
  | EmptyString => EmptyString
  | String c s' => if nat_of_ascii c <=? 32 then lstrip_c0 s' else s
  end.

(** Tab, line feed and carriage return are removed wherever they are. *)
Fixpoint remove_unsafe (s : string) : string :=
  match s with
  | EmptyString => EmptyString
  | String c s' =>
      if bool_decide (nat_of_ascii c ∈ [9; 10; 13]) then remove_unsafe s'
      else String c (remove_unsafe s')
  end.

(** Where the network location ends: the first of [/], [?] and [#]. *)
Fixpoint netloc_end (s : string) : nat :=
  match s with
  | EmptyString => 0
  | String c s' =>
      if bool_decide (c ∈ ["/"; "?"; "#"]%char) then 0 else S (netloc_end s')
  end.

Record parse_result := { scheme : string; netloc : string; rest : string }.

Definition urlparse (url : string) : result parse_result :=
  let url := remove_unsafe (lstrip_c0 url) in
  let '(sch, url) :=
    match Py.find ":" url, url with
    | Some (S i), String c _ =>
        if is_alpha c && all_chars scheme_char (Py.take (S i) url)
        then (Py.lower (Py.take (S i) url), Py.drop (S (S i)) url)
        else (EmptyString, url)
    | _, _ => (EmptyString, url)
    end in
  if Py.startswith "//" url then
    let body := Py.drop 2 url in
    let loc := Py.take (netloc_end body) body in
    if xorb (has_char "[" loc) (has_char "]" loc)
    then Raise (Exception "ValueError" "Invalid IPv6 URL")
    else Return {| scheme := sch; netloc := loc; rest := Py.drop (netloc_end body) body |}
  else Return {| scheme := sch; netloc := EmptyString; rest := url |}.

(** [s.rpartition(c)[2]] *)
Definition after_last (c : ascii) (s : string) : string :=
  match Py.rfind c s with
  | Some i => Py.drop (S i) s
  | None => s
  end.

(** [s.partition(c)[0]] *)
Definition before_first (c : ascii) (s : string) : string :=
  match Py.find c s with
  | Some i => Py.take i s
  | None => s
  end.

(** The [hostname] property: user information and port are cut off, the
    name is lower-cased up to an IPv6 zone; [None] when it is empty. *)
Definition hostname (r : parse_result) : option string :=
  let hostinfo := after_last "@" (netloc r) in
  let h :=
    match Py.find "[" hostinfo with
    | Some i => before_first "]" (Py.drop (S i) hostinfo)
    | None => before_first ":" hostinfo
    end in
  if Py.truthy h then
    Some match Py.find "%" h with
         | Some i => Py.lower (Py.take i h) +:+ Py.drop i h
         | None => Py.lower h
         end
  else None.

End Urllib.

(** ** webscraping.py: the extractors *)

Definition nl : string := String (ascii_of_nat 10) EmptyString.

Record snapshot := {
  url : string;
  title : string;
  main_content : string;
  paragraphs : list string;
  headings : list string;
  meta_data : gmap string string;
  internal_links : list string;
  formatted_content : string;
}.

(** [text and len(text) > n] *)
Definition longer_than (n : nat) (text : string) : bool :=
  Py.truthy text && (n <? String.length text).

Definition selectors : list (string * string) :=
  [("id", "main"); ("id", "content"); ("class", "main-content");
   ("class", "main"); ("role", "main")].

(** The first loop of [get_main_content]. *)
Fixpoint try_selectors (sels : list (string * string)) (sp : soup) : option string :=
  match sels with
  | [] => None
  | (k, v) :: sels' =>
      match Bs4.find_attr k v sp with
      | Some main_content =>
          let text := Bs4.get_text_strip main_content in
          if longer_than 20 text then Some text else try_selectors sels' sp
      | None => try_selectors sels' sp
      end
  end.

(** The last loop of [get_main_content]. *)
Fixpoint first_substantial (tags : list node) : option string :=
  match tags with
  | [] => None
  | tag :: tags' =>
      let text := Bs4.get_text_strip tag in
      if longer_than 100 text then Some (Py.take 2000 text)
      else first_substantial tags'
  end.

Definition get_main_content (sp : soup) : string :=
  match try_selectors selectors sp with
  | Some text => text
  | None =>
      let main_content :=
        match Bs4.find "main" sp with
        | Some t => Some t
        | None => Bs4.find "article" sp
        end in
      match (match main_content with
             | Some t =>
                 let text := Bs4.get_text_strip t in
                 if longer_than 20 text then Some text else None
             | None => None
             end) with
      | Some text => text
      | None =>
          match first_substantial (Bs4.find_all ["main"; "article"; "section"] sp) with
          | Some text => text
          | None => EmptyString
          end
      end
  end.

Definition get_paragraphs (sp : soup) : list string :=
  Bs4.get_text <$> Bs4.find_all ["p"] sp.

Definition get_headings (sp : soup) : list string :=
  Bs4.get_text <$> Bs4.find_all ["h1"; "h2"; "h3"; "h4"; "h5"; "h6"] sp.

(** [a or b] on optional strings. *)
Definition or_else (a b : option string) : option string :=
  match a with
  | Some s => if Py.truthy s then a else b
  | None => b
  end.

Definition meta_step (meta_data : gmap string string) (meta_tag : node) : gmap string string :=
  let name := or_else (Bs4.get "name" meta_tag) (Bs4.get "property" meta_tag) in
  let content := Bs4.get "content" meta_tag in
  match name, content with
  | Some n, Some c =>
      if Py.truthy n && Py.truthy c then <[n := c]> meta_data else meta_data
  | _, _ => meta_data
  end.

Definition get_meta_data (sp : soup) : gmap string string :=
  foldl meta_step ∅ (Bs4.find_all ["meta"] sp).

Definition tag_names : list string :=
  ["h1"; "h2"; "h3"; "h4"; "h5"; "h6"; "p"; "ul"; "ol"].

Definition ignore_classes : list string :=
  ["ch2-container"; "ch2-theme-bar"; "ch2-style-light"; "ch2-dialog";
   "ch2-dialog-bottom"; "ch2-visible"; "ch2-settings"; "ch2-settings-scan"].

(** [any(cls in ignore_classes for cls in tag.get('class', []))] *)
Definition has_ignored_class (tag : node) : bool :=
  existsb (fun cls => str_in cls ignore_classes) (Bs4.get_class tag).

(** [child.name in tag_names] *)
Definition is_block (child : node) : bool :=
  match Bs4.name child with
  | Some nm => str_in nm tag_names
  | None => false
  end.

(** The f-string that is appended for a block: the text, a space, a newline. *)
Definition block_line (text : string) : string := text +:+ " " +:+ nl.

(** One iteration of the loop of [get_formatted_content] over a tag and its
    [parents]; the state is [(formatted_article, unique_text)]. *)
Definition formatted_step (st : list string * gset string) (tp : node * list node)
  : list string * gset string :=
  let '(formatted_article, unique_text) := st in
  let '(tag, parents) := tp in
  if is_block tag then
    if negb (has_ignored_class tag) && negb (existsb has_ignored_class parents) then
      if negb (existsb is_block (Bs4.children tag)) then
        let text := Py.strip (Bs4.get_text tag) in
        let lower_text := Py.lower text in
        if Py.truthy text && negb (bool_decide (lower_text ∈ unique_text)) then
          (formatted_article ++ [block_line text], unique_text ∪ {[lower_text]})
        else st
      else st
    else st
  else st.

(** The list [formatted_article] when the loop ends. *)
Definition formatted_article (sp : soup) : list string :=
  fst (foldl formatted_step ([], ∅) (Bs4.walk_soup sp)).

Definition get_formatted_content (sp : soup) : string :=
  Py.concat (formatted_article sp).

Section Extraction.

(** [urllib.parse.urljoin], which raises [ValueError] on some inputs. *)
Variable urljoin : string -> string -> result string.

(** [urlparse(url).scheme + "://" + urlparse(url).hostname]: a [TypeError]
    when the URL has no host. *)
Definition base_url_of (url : string) : result string :=
  let* u := Urllib.urlparse url in
  match Urllib.hostname u with
  | Some h => Return (Urllib.scheme u +:+ "://" +:+ h)
  | None => Raise (Exception "TypeError" "can only concatenate str (not NoneType) to str")
  end.

(** The loop of [get_internal_links] over the anchors that have an [href];
    the accumulator is the list [internal_links]. *)
Fixpoint internal_links_loop (base_url : string) (a_tags : list node)
    (internal_links : list string) : result (list string) :=
  match a_tags with
  | [] => Return internal_links
  | a_tag :: a_tags' =>
      let href := default EmptyString (Bs4.get "href" a_tag) in
      if Py.startswith "/" href then
        let* full_url := urljoin base_url href in
        internal_links_loop base_url a_tags' (internal_links ++ [full_url])
      else if Py.startswith base_url href then
        internal_links_loop base_url a_tags' (internal_links ++ [href])
      else internal_links_loop base_url a_tags' internal_links
  end.

Definition get_internal_links (sp : soup) (url : string) : result (list string) :=
  let* base_url := base_url_of url in
  internal_links_loop base_url
    (filter (fun a_tag => is_Some (Bs4.get "href" a_tag)) (Bs4.find_all ["a"] sp)) [].

End Extraction.

(** ** webscraping.py: the retry loop *)

(** [soup.select('aside, header, nav, footer')] followed by [decompose()] on
    every match: each such tag leaves the tree with all it contains. *)
Definition noise_tags : list string := ["aside"; "header"; "nav"; "footer"].

Fixpoint decompose_node (n : node) : list node :=
  match n with
  | NavigableString _ => [n]
  | Tag nm attrs cls cs =>
      if str_in nm noise_tags then []
      else [Tag nm attrs cls (flat_map decompose_node cs)]
  end.

Definition decompose_noise (sp : soup) : soup := flat_map decompose_node sp.

(** What the page handle answers during one attempt, in the order the calls
    are made.  [page_content] is the markup already parsed by
    [BeautifulSoup(page_content, 'html.parser')]. *)
Record attempt_obs := {
  wait_for_load_state : result unit;
  page_title : result string;
  page_url : string;
  page_content : result soup;
  page_title_again : result string;
}.

(** A page handle: what it answers in each attempt, and the markup it serves
    once the attempts are over (read by the fallback in [save_file]). *)
Record page := {
  attempt_view : nat -> attempt_obs;
  late_content : result soup;
}.

Record playwright_manager := { get_page : result page }.

(** The suspension points of one call. *)
Inductive event :=
| WaitForLoadState (timeout_ms : Z)
| Sleep (seconds : nat)
| SleepBackoff.

Definition max_retries : nat := 3.

(** How an iteration of the [for] loop ends: with [return] or [raise], or by
    going on to the next attempt after a sleep. *)
Inductive outcome :=
| Finished (r : result (option snapshot))
| NextAttempt (sleep : event).

Definition timeout_snapshot (u : string) : snapshot :=
  {| url := u;
     title := "timeout waiting for page";
     main_content := EmptyString;
     paragraphs := [];
     headings := [];
     meta_data := ∅;
     internal_links := [];
     formatted_content := EmptyString |}.

Section Webscraping.

Variable urljoin : string -> string -> result string.

(** The two [except] clauses. *)
Definition handle (attempt : nat) (o : attempt_obs) (e : exn) : outcome :=
  match e with
  | PlaywrightTimeoutError _ => Finished (Return (Some (timeout_snapshot (page_url o))))
  | Exception _ _ =>
      if decide (attempt = max_retries - 1) then Finished (Raise e)
      else NextAttempt SleepBackoff
  end.

(** The [try] block from [current_url = page.url] on. *)
Definition extract (o : attempt_obs) : result snapshot :=
  let current_url := page_url o in
  let* parsed := page_content o in
  let sp := decompose_noise parsed in
  let* t := page_title_again o in
  let* links := get_internal_links urljoin sp current_url in
  Return {| url := current_url;
            title := t;
            main_content := get_main_content sp;
            paragraphs := get_paragraphs sp;
            headings := get_headings sp;
            meta_data := get_meta_data sp;
            internal_links := links;
            formatted_content := get_formatted_content sp |}.

Definition attempt_body (attempt : nat) (o : attempt_obs) : outcome :=
  match wait_for_load_state o with
  | Raise e => handle attempt o e
  | Return _ =>
      match page_title o with
      | Raise e => handle attempt o e
      | Return t =>
          if Py.contains "cloudflare" (Py.lower t) then NextAttempt (Sleep 5)
          else match extract o with
               | Return content => Finished (Return (Some content))
               | Raise e => handle attempt o e
               end
      end
  end.

(** [for attempt in range(max_retries)]; falling off the end of the loop
    returns [None]. *)
Fixpoint webscraping_loop (pg : page) (attempts : list nat)
  : result (option snapshot) * list event :=
  match attempts with
  | [] => (Return None, [])
  | attempt :: attempts' =>
      match attempt_body attempt (attempt_view pg attempt) with
      | Finished r => (r, [WaitForLoadState 10000%Z])
      | NextAttempt sleep =>
          let '(r, trace) := webscraping_loop pg attempts' in
          (r, WaitForLoadState 10000%Z :: sleep :: trace)
      end
  end.

Definition webscraping (pm : playwright_manager) : result (option snapshot) * list event :=
  match get_page pm with
  | Raise e => (Raise e, [])
  | Return pg => webscraping_loop pg (seq 0 max_retries)
  end.

End Webscraping.

(** ** The file system

    A store from places to files and directories.  A place is named by its
    key: the names from the root, or from the working directory, that are
    left when a path is walked ([.] stays, [..] goes up), so that two
    spellings of one path share a key.  The root, the working directory and
    the directories above it exist and carry no entry; their names are not
    known, so that a path from the root and a path from the working
    directory never name the same place, and a path that has gone up from
    the working directory does not come back into it.  There are no symbolic
    links, no permissions, no limits on the length of a name and no device
    errors: [os.makedirs] and [open] raise for what they find in the store,
    and a write to a file that was opened reaches the disk. *)

Inductive fs_entry :=
| File (data : string)
| Dir.

Abbreviation fs := (gmap string fs_entry).

(** A computation that reads and changes the file system and may raise. *)
Definition io (A : Type) : Type := fs -> result A * fs.

Definition io_ret {A} (a : A) : io A := fun st => (Return a, st).

Definition io_raise {A} (e : exn) : io A := fun st => (Raise e, st).

Definition io_bind {A B} (m : io A) (k : A -> io B) : io B :=
  fun st =>
    match m st with
    | (Return a, st') => k a st'
    | (Raise e, st') => (Raise e, st')
    end.

Notation "'let!' x := m 'in' k" := (io_bind m (fun x => k))
  (at level 10, x name, m at level 100, k at level 200).

Module Os.

(** [s.rstrip('/')] *)
Fixpoint rstrip_sep (s : string) : string :=
  match s with
  | EmptyString => EmptyString
  | String c s' =>
      let r := rstrip_sep s' in
      if bool_decide (c = "/"%char) && negb (Py.truthy r) then EmptyString
      else String c r
  end.

(** [os.path.dirname] (posixpath) *)
Definition dirname (p : string) : string :=
  match Py.rfind "/" p with
  | None => EmptyString
  | Some i =>
      let head := Py.take (S i) p in
      if Py.truthy (rstrip_sep head) then rstrip_sep head else head
  end.

(** [os.path.splitext(p)[1]] (posixpath): the extension starts at the last
    dot of the last component, unless only dots come before it there. *)
Definition splitext_ext (p : string) : string :=
  match Py.rfind "." p with
  | None => EmptyString
  | Some dotIndex =>
      let filenameIndex := match Py.rfind "/" p with Some i => S i | None => 0 end in
      if filenameIndex <=? dotIndex then
        if Urllib.all_chars (fun c => bool_decide (c = "."%char))
             (Py.take (dotIndex - filenameIndex) (Py.drop filenameIndex p))
        then EmptyString
        else Py.drop dotIndex p
      else EmptyString
  end.

(** The names of a path: the pieces between slashes, but for the empty
    ones. *)
Definition components (p : string) : list string :=
  filter (fun c => Py.truthy c = true) (Py.split "/" p).

(** The path as written up to the end of its [n]th name. *)
Fixpoint upto (n : nat) (inside : bool) (s : string) : string :=
  match s with
  | EmptyString => EmptyString
  | String c s' =>
      if bool_decide (c = "/"%char) then
        if inside && (n =? 0) then EmptyString else String c (upto n false s')
      else if inside then String c (upto n true s')
      else match n with
           | 0 => EmptyString
           | S n' => String c (upto n' true s')
           end
  end.

(** A name that no system call takes. *)
Definition has_nul (s : string) : bool := Urllib.has_char (ascii_of_nat 0) s.

Definition embedded_null : exn := Exception "ValueError" "embedded null byte".

(** [os.path.isabs] *)
Definition isabs (p : string) : bool := Py.startswith "/" p.

(** One level up: the root is its own parent, and above the working
    directory a place is a run of [..]. *)
Definition parent (abs : bool) (cur : list string) : list string :=
  match last cur with
  | None => if abs then [] else [".."]
  | Some c => if decide (c = "..") then cur ++ [".."] else removelast cur
  end.

(** Walking one name from a place. *)
Definition step (abs : bool) (cur : list string) (c : string) : list string :=
  if decide (c = ".") then cur
  else if decide (c = "..") then parent abs cur
  else cur ++ [c].

Definition key_of (abs : bool) (cur : list string) : string :=
  (if abs then "/" else "") +:+ Py.join "/" cur.

(** The key of the place that a path names. *)
Definition key (p : string) : string :=
  key_of (isabs p) (foldl (step (isabs p)) [] (components p)).

(** What is at a place: the root, the working directory and the directories
    above it are always there. *)
Definition lookup_place (st : fs) (abs : bool) (cur : list string) : option fs_entry :=
  if forallb (fun c => bool_decide (c = "..")) cur then Some Dir
  else st !! key_of abs cur.

(** [os.makedirs(name, exist_ok=True)], walking the names of [name] from the
    place [cur], [n] names in: a missing directory is made; a regular file
    in the way raises, [FileExistsError] when it bears the last name and
    otherwise what [mkdir] says of the next name under it. *)
Fixpoint mkdirs (name : string) (abs : bool) (n : nat) (cur : list string)
    (comps : list string) : io unit :=
  match comps with
  | [] => io_ret ()
  | c :: comps' =>
      fun st =>
        if has_nul c then (Raise embedded_null, st)
        else
          match lookup_place st abs (step abs cur c) with
          | Some (File _) =>
              (Raise (match comps' with
                      | [] => Exception "FileExistsError" name
                      | c' :: _ =>
                          if has_nul c' then embedded_null
                          else Exception "NotADirectoryError" (upto (S (S n)) false name)
                      end), st)
          | Some Dir => mkdirs name abs (S n) (step abs cur c) comps' st
          | None =>
              mkdirs name abs (S n) (step abs cur c) comps'
                (<[key_of abs (step abs cur c) := Dir]> st)
          end
  end.

Definition makedirs (name : string) : io unit :=
  mkdirs name (isabs name) 0 [] (components name).

(** Walking the directories of a path without making any: the exception of
    [open] when one is missing or is a regular file. *)
Fixpoint find_dirs (path : string) (abs : bool) (cur : list string) (comps : list string)
    (st : fs) : result () :=
  match comps with
  | [] => Return ()
  | c :: comps' =>
      match lookup_place st abs (step abs cur c) with
      | Some Dir => find_dirs path abs (step abs cur c) comps' st
      | Some (File _) => Raise (Exception "NotADirectoryError" path)
      | None => Raise (Exception "FileNotFoundError" path)
      end
  end.

(** The last piece of a path as written names a directory: it is empty (the
    path ends in a slash), or it is [.] or [..]. *)
Definition names_directory (path : string) : bool :=
  match last (Py.split "/" path) with
  | Some name => str_in name [""; "."; ".."]
  | None => true
  end.

(** [open(path, 'a' if append else 'w')]: the file exists afterwards, empty
    unless it was opened for appending. *)
Definition open_ (path : string) (append : bool) : io unit :=
  fun st =>
    if has_nul path then (Raise embedded_null, st)
    else if negb (Py.truthy path) then (Raise (Exception "FileNotFoundError" path), st)
    else if names_directory path then
      match find_dirs path (isabs path) [] (components path) st with
      | Raise e => (Raise e, st)
      | Return _ => (Raise (Exception "IsADirectoryError" path), st)
      end
    else
      match find_dirs path (isabs path) [] (removelast (components path)) st with
      | Raise e => (Raise e, st)
      | Return _ =>
          match st !! key path with
          | Some Dir => (Raise (Exception "IsADirectoryError" path), st)
          | Some (File data) =>
              (Return (), if append then st else <[key path := File EmptyString]> st)
          | None => (Return (), <[key path := File EmptyString]> st)
          end
      end.

(** [f.write(text)] on the handle opened on [path] *)
Definition write (path text : string) : io unit :=
  fun st =>
    match st !! key path with
    | Some (File data) => (Return (), <[key path := File (data +:+ text)]> st)
    | _ => (Return (), st)
    end.

(** The text that a file holds. *)
Definition read (path : string) (st : fs) : option string :=
  match st !! key path with
  | Some (File data) => Some data
  | _ => None
  end.

(** [os.path.isdir] *)
Definition isdir (path : string) (st : fs) : bool :=
  Py.truthy path && negb (has_nul path)
  && match find_dirs path (isabs path) [] (components path) st with
     | Return _ => true
     | Raise _ => false
     end.

End Os.

(** ** save_file.py *)

(** The dict that [save_file] returns. *)
Record artifact := {
  status : string;
  file_path : string;
  message : option string;
}.

(** The arguments of the call to [completion]. *)
Record request := {
  model : string;
  system_content : string;
  user_content : string;
  max_tokens : nat;
  completion_kwargs : list (string * option string);
}.

(** Directory creation and the write: the end of both [save_file]s. *)
Definition file_sink (target_path final_text : string) (append : bool) : io unit :=
  let directory := Os.dirname target_path in
  let! _ := (if Py.truthy directory then Os.makedirs directory else io_ret ()) in
  let! _ := Os.open_ target_path append in
  let! _ := Os.write target_path final_text in
  if append && negb (Py.endswith_char (ascii_of_nat 10) final_text)
  then Os.write target_path nl
  else io_ret ().

Definition default_path : string := "log/agent_output.txt".

(** [file_path or "log/agent_output.txt"] *)
Definition path_or_default (file_path : option string) : string :=
  match file_path with
  | Some p => if Py.truthy p then p else default_path
  | None => default_path
  end.

(** [model_name or "gpt-4o-mini"] *)
Definition model_or_default (model_name : option string) : string :=
  match model_name with
  | Some m => if Py.truthy m then m else "gpt-4o-mini"
  | None => "gpt-4o-mini"
  end.

(** *** backend/api/litewebagent/tools/save_file.py *)

Module Backend.

(** The entries of [selectors_to_try]: a tag name goes to [find_all], the
    CSS selectors [[role=main]], [.content], [.main-content] and
    [[class*=content]] go to [select]. *)
Inductive selector :=
| ByTag (name : string)
| ByAttr (k v : string)
| ByClass (cls : string)
| ByClassSubstring (sub : string).

Definition selectors_to_try : list selector :=
  [ByTag "main"; ByTag "article"; ByAttr "role" "main"; ByClass "content";
   ByClass "main-content"; ByClassSubstring "content"; ByTag "body"].

Definition select (sel : selector) (sp : soup) : list node :=
  match sel with
  | ByTag nm => Bs4.find_all [nm] sp
  | ByAttr k v =>
      filter (fun n => bool_decide (Bs4.get k n = Some v) = true) (Bs4.find_all_tags sp)
  | ByClass c =>
      filter (fun n => str_in c (Bs4.get_class n) = true) (Bs4.find_all_tags sp)
  | ByClassSubstring sub =>
      filter (fun n => match Bs4.get_class n with
                       | [] => false
                       | cls => Py.contains sub (Py.join " " cls)
                       end = true) (Bs4.find_all_tags sp)
  end.

(** The inner loop of the fallback: the first element with more than 50
    characters of text, cut at 2000. *)
Fixpoint first_long (elements : list node) : option string :=
  match elements with
  | [] => None
  | elem :: elements' =>
      let text := Bs4.get_text_strip elem in
      if longer_than 50 text then Some (Py.take 2000 text) else first_long elements'
  end.

(** The outer loop: [additional_text] holds at most one text. *)
Fixpoint additional_text (sels : list selector) (sp : soup) : option string :=
  match sels with
  | [] => None
  | sel :: sels' =>
      match first_long (select sel sp) with
      | Some text => Some text
      | None => additional_text sels' sp
      end
  end.

Definition csv_system_message : string :=
  "You are a data extractor. Given page content, extract meaningful information and output it as valid CSV. " +:+
  "Include a header row with column names like: Component, Description, Type, Details, etc. " +:+
  "Extract key page elements, sections, content blocks, and their descriptions. " +:+
  "Each row should describe a distinct part of the page structure or content. " +:+
  "Follow CSV rules strictly: no newlines in cells, proper escaping. " +:+
  "If page is blank/inaccessible, still provide at least one descriptive row.".

Definition text_system_message : string :=
  "You are a formatter. Given source text, rewrite it into a well-structured output appropriate " +:+
  "for the target file. Avoid raw HTML/DOM noise. " +:+
  "Produce a clean, concise write-up that fits the user intent. " +:+
  "If page is blank or inaccessible, say so.".

Definition no_content_notice : string :=
  "(No page content available - page may not have loaded)".

Definition max_context_chars : nat := 8 * 1000.

Section SaveFile.

(** [urllib.parse.urljoin] *)
Variable urljoin : string -> string -> result string.
(** [os.path.expanduser] *)
Variable expanduser : string -> string.
(** [os.getenv] *)
Variable getenv : string -> option string.
(** [str(scrape_result)] on a dict *)
Variable str_dict : snapshot -> string.
(** The call [completion(...)] together with the reading of
    [resp.choices[0].message.content]. *)
Variable completion : request -> result string.

Definition _format_scrape_result (scrape_result : option snapshot) : string :=
  match scrape_result with
  | None => "None"
  | Some d =>
      let lines := [] in
      let lines :=
        if Py.truthy (title d) then lines ++ ["Title: " +:+ title d] else lines in
      let lines :=
        if Py.truthy (main_content d)
        then lines ++ [nl +:+ "Main Content:"; Py.strip (main_content d)] else lines in
      let lines :=
        if Py.truthy (formatted_content d)
        then lines ++ [nl +:+ "Formatted Content:"; Py.strip (formatted_content d)] else lines in
      let lines :=
        match paragraphs d with
        | [] => lines
        | ps => lines ++ [nl +:+ "Paragraphs:"]
                      ++ filter (fun p => Py.truthy p) (Py.strip <$> ps)
        end in
      if Py.truthy (Py.join nl lines) then Py.join nl lines else str_dict d
  end.

(** The fallback that reads the markup again; whatever it raises is
    swallowed. *)
Definition fallback_context (pm : playwright_manager) (context_text : string) : string :=
  if negb (Py.truthy context_text) || Py.contains "Main content not found" context_text then
    match (let* pg := get_page pm in
           let* sp := late_content pg in
           Return (additional_text selectors_to_try sp)) with
    | Return (Some text) => text
    | _ => context_text
    end
  else context_text.

(** [context_text] when the model is called. *)
Definition build_context (content : option string) (pm : playwright_manager)
  : result string :=
  match content with
  | Some c => Return c
  | None =>
      let* scrape := fst (webscraping urljoin pm) in
      Return (fallback_context pm (_format_scrape_result scrape))
  end.

Definition build_request (target_path trimmed_context : string)
    (model_name : option string) : request :=
  let summary_model := model_or_default model_name in
  let extension := Py.lower (Os.splitext_ext target_path) in
  let system_message :=
    if decide (extension = ".csv") then csv_system_message else text_system_message in
  let kwargs :=
    if Py.contains "gemini" (Py.lower summary_model)
    then [("custom_llm_provider", Some "gemini"); ("api_key", getenv "GEMINI_API_KEY")]
    else [] in
  {| model := summary_model;
     system_content := system_message;
     user_content := if Py.truthy trimmed_context then trimmed_context else no_content_notice;
     max_tokens := 1200;
     completion_kwargs := kwargs |}.

Definition save_file (content file_path : option string) (append : bool)
    (pm : playwright_manager) (model_name : option string) : io artifact :=
  match build_context content pm with
  | Raise e => io_raise e
  | Return context_text =>
      let target_path := expanduser (path_or_default file_path) in
      let trimmed_context := Py.take max_context_chars context_text in
      match completion (build_request target_path trimmed_context model_name) with
      | Raise e =>
          io_ret {| status := "error"; file_path := target_path;
                    message := Some ("formatting_failed: " +:+ str_exn e) |}
      | Return text =>
          let final_text := Py.strip text in
          if Py.startswith "formatting failed" (Py.lower final_text) then
            io_ret {| status := "error"; file_path := target_path;
                      message := Some final_text |}
          else
            let! _ := file_sink target_path final_text append in
            io_ret {| status := "success"; file_path := target_path; message := None |}
      end
  end.

End SaveFile.

End Backend.

(** *** litewebagent/webagent_utils_sync/tools/save_file.py *)

Module Sync.

Definition csv_style_hint : string :=
  "Produce valid CSV (with a header row) strictly following CSV rules. Avoid HTML/DOM noise. " +:+
  "Keep cells compact, no newlines inside cells. If page is blank or inaccessible, write a short note row.".

Definition text_style_hint : string :=
  "Produce a clean, concise write-up that fits the user intent. Avoid HTML/DOM noise. " +:+
  "If page is blank or inaccessible, say so.".

Definition system_preamble : string :=
  "You are a formatter. Given source text, rewrite it into a well-structured output appropriate " +:+
  "for the target file. Avoid raw HTML/DOM noise. ".

Section SaveFile.

(** [webscraping] of [webagent_utils_sync/tools/webscraping.py], a module
    that is not part of these sources: what the call returns or raises. *)
Variable webscraping : playwright_manager -> result (option snapshot).
(** [os.path.expanduser] *)
Variable expanduser : string -> string.
(** [os.getenv] *)
Variable getenv : string -> option string.
(** [str(scrape_result)] on a dict *)
Variable str_dict : snapshot -> string.
(** The call [completion(...)] together with the reading of
    [resp.choices[0].message.content]. *)
Variable completion : request -> result string.

Definition _format_scrape_result (scrape_result : option snapshot) : string :=
  match scrape_result with
  | None => "None"
  | Some d =>
      let parts := [] in
      let parts :=
        if Py.truthy (title d) then parts ++ ["Title: " +:+ title d] else parts in
      let parts :=
        if Py.truthy (main_content d)
        then parts ++ [nl +:+ "Main Content:" +:+ nl +:+ Py.strip (main_content d)]
        else parts in
      let parts :=
        if Py.truthy (formatted_content d)
        then parts ++ [nl +:+ "Formatted Content:" +:+ nl +:+ Py.strip (formatted_content d)]
        else parts in
      let parts :=
        match paragraphs d with
        | [] => parts
        | paras =>
            parts ++ [nl +:+ "Paragraphs:" +:+ nl +:+
                      Py.join nl (filter (fun p => Py.truthy p) (Py.strip <$> paras))]
        end in
      if Py.truthy (Py.strip (Py.join nl parts)) then Py.strip (Py.join nl parts)
      else str_dict d
  end.

Definition build_context (content : option string) (pm : playwright_manager)
  : result string :=
  match content with
  | Some c => Return c
  | None =>
      let* scrape := webscraping pm in
      Return (_format_scrape_result scrape)
  end.

Definition build_request (target_path trimmed_context : string)
    (model_name : option string) : request :=
  let summary_model := model_or_default model_name in
  let kwargs :=
    if Py.contains "gemini" (Py.lower summary_model)
    then [("custom_llm_provider", Some "gemini"); ("api_key", getenv "GEMINI_API_KEY")]
    else [] in
  let extension := Py.lower (Os.splitext_ext target_path) in
  let style_hint :=
    if decide (extension = ".csv") then csv_style_hint else text_style_hint in
  {| model := summary_model;
     system_content := system_preamble +:+ style_hint;
     user_content := trimmed_context;
     max_tokens := 800;
     completion_kwargs := kwargs |}.

Definition save_file (content file_path : option string) (append : bool)
    (pm : playwright_manager) (model_name : option string) : io artifact :=
  match build_context content pm with
  | Raise e => io_raise e
  | Return context_text =>
      let target_path := expanduser (path_or_default file_path) in
      let trimmed_context := Py.take (6 * 1000) context_text in
      match completion (build_request target_path trimmed_context model_name) with
      | Raise e =>
          io_ret {| status := "error"; file_path := target_path;
                    message := Some ("formatting_failed: " +:+ str_exn e) |}
      | Return text =>
          let final_text := Py.strip text in
          let! _ := file_sink target_path final_text append in
          io_ret {| status := "success"; file_path := target_path; message := None |}
      end
  end.

End SaveFile.

End Sync.

(** ** Vocabulary of the properties, and sample inputs *)

(** [urlparse(u).hostname], [None] also when the URL does not parse. *)
Definition host_of (u : string) : option string :=
  match Urllib.urlparse u with
  | Return r => Urllib.hostname r
  | Raise _ => None
  end.

Definition evil_anchor : node :=
  Tag "a" [("href", "https://example.com.evil.com/login")] [] [NavigableString "Sign in"].

(** The lines of a text. *)
Definition lines (s : string) : list string := Py.split (ascii_of_nat 10) s.

(** No two lines are the same up to case. *)
Definition no_duplicate_lines (s : string) : Prop := NoDup (Py.lower <$> lines s).

(** The text of the block a tag contributes. *)
Definition block_text (tag : node) : string := Py.strip (Bs4.get_text tag).

(** The tags below a tag, at any depth. *)
Definition descendants (tag : node) : list node :=
  flat_map (fun c => fst <$> Bs4.walk [] c) (Bs4.children tag).

Definition has_block_descendant (tag : node) : bool := existsb is_block (descendants tag).

(** A paragraph whose text has three lines, two of them the same. *)
Definition repeated_line_paragraph : node :=
  Tag "p" [] [] [NavigableString ("x" +:+ nl +:+ "x" +:+ nl +:+ "y")].

(** A paragraph inside an item of a list. *)
Definition nested_paragraph : node := Tag "p" [] [] [NavigableString "x"].

Definition nested_list : node := Tag "ul" [] [] [Tag "li" [] [] [nested_paragraph]].

(** [tag.name] is one of [aside], [header], [nav], [footer]. *)
Definition is_noise (n : node) : bool :=
  match Bs4.name n with
  | Some nm => str_in nm noise_tags
  | None => false
  end.

(** Malformed markup: the region with id [main] lies inside a [header]. *)
Definition main_in_header : soup :=
  [Tag "header" [] []
     [Tag "div" [("id", "main")] []
        [NavigableString "This is the main content of the page."]]].

Definition main_in_header_obs : attempt_obs :=
  {| wait_for_load_state := Return ();
     page_title := Return "Example";
     page_url := "https://example.com/";
     page_content := Return main_in_header;
     page_title_again := Return "Example" |}.

(** The snapshot extracted from it. *)
Definition main_in_header_snapshot : snapshot :=
  {| url := "https://example.com/";
     title := "Example";
     main_content := "";
     paragraphs := [];
     headings := [];
     meta_data := ∅;
     internal_links := [];
     formatted_content := "" |}.

(** A stand-in for [urljoin] in sample evaluations. *)
Definition sample_urljoin (base href : string) : result string := Return (base +:+ href).

(** The tags that contributed a block so far, in the order of their blocks. *)
Definition emitted_by (visited : list (node * list node))
    (st : list string * gset string) (tags : list node) : Prop :=
  st.1 = (block_line ∘ block_text) <$> tags
  ∧ NoDup ((Py.lower ∘ block_text) <$> tags)
  ∧ (∀ t, t ∈ tags → Py.lower (block_text t) ∈ st.2)
  ∧ Forall (fun t => t ∈ visited.*1
                     ∧ is_block t = true
                     ∧ existsb is_block (Bs4.children t) = false
                     ∧ Py.truthy (block_text t) = true) tags.

(** The waits for network-idle among the events of a call. *)
Definition is_wait (e : event) : bool :=
  match e with
  | WaitForLoadState _ => true
  | _ => false
  end.

Definition waits (trace : list event) : nat :=
  length (filter (fun e => is_wait e = true) trace).

(** A page behind a challenge interstitial. *)
Definition challenge_obs : attempt_obs :=
  {| wait_for_load_state := Return ();
     page_title := Return "Just a moment... | Cloudflare";
     page_url := "https://example.com/";
     page_content := Return [];
     page_title_again := Return "Just a moment... | Cloudflare" |}.

(** A page that never reaches network-idle. *)
Definition stalled_obs : attempt_obs :=
  {| wait_for_load_state := Raise (PlaywrightTimeoutError "Timeout 10000ms exceeded.");
     page_title := Return "";
     page_url := "about:blank";
     page_content := Return [];
     page_title_again := Return "" |}.

Definition challenge_page : page :=
  {| attempt_view := fun _ => challenge_obs; late_content := Return [] |}.

(** A challenge in the first attempt, no network-idle in the second. *)
Definition challenge_then_stalled_page : page :=
  {| attempt_view := fun i => if decide (i = 0) then challenge_obs else stalled_obs;
     late_content := Return [] |}.

(** What the file at the place of a path holds, the empty text when there
    is none. *)
Definition contents (st : fs) (p : string) : string := default "" (Os.read p st).

(** The newline that append mode adds after a text that lacks one. *)
Definition terminator (append : bool) (text : string) : string :=
  if append && negb (Py.endswith_char (ascii_of_nat 10) text) then nl else "".

(** The first step of the write block: the directory of the target. *)
Definition prepare_dirs (p : string) : io unit :=
  if Py.truthy (Os.dirname p) then Os.makedirs (Os.dirname p) else io_ret ().

(** A change of the store that keeps every entry as it is and adds
    directories only. *)
Definition only_adds_dirs (st st' : fs) : Prop :=
  ∀ k, st' !! k = st !! k ∨ (st !! k = None ∧ st' !! k = Some Dir).

(** A name other than [.] and [..]. *)
Definition plain_name (c : string) : bool := negb (str_in c ["."; ".."]).

(** No regular file stands where a path needs a directory: none at any of
    the places that the names [comps] lead through from [cur]. *)
Fixpoint no_file_on (st : fs) (abs : bool) (cur comps : list string) : bool :=
  match comps with
  | [] => true
  | c :: comps' =>
      match st !! Os.key_of abs (cur ++ [c]) with
      | Some (File _) => false
      | _ => true
      end && no_file_on st abs (cur ++ [c]) comps'
  end.

(** A path that the write block can write to: it has no NUL and does not
    name a directory, its names are plain, no regular file stands where it
    needs a directory, and no directory where it puts the file. *)
Definition writable (st : fs) (p : string) : bool :=
  negb (Os.has_nul p) && negb (Os.names_directory p)
  && forallb plain_name (Os.components p)
  && no_file_on st (Os.isabs p) [] (removelast (Os.components p))
  && match st !! Os.key p with
     | Some Dir => false
     | _ => true
     end.

(** The last character of a text is not whitespace. *)
Fixpoint ends_in_text (p : string) : bool :=
  match p with
  | EmptyString => false
  | String c EmptyString => negb (Py.is_space c)
  | String _ p' => ends_in_text p'
  end.

(** The two dicts that [save_file] returns. *)
Definition success_result (target_path : string) : artifact :=
  {| status := "success"; file_path := target_path; message := None |}.

Definition error_result (target_path msg : string) : artifact :=
  {| status := "error"; file_path := target_path; message := Some msg |}.

(** Sample surroundings of a call of [save_file]: no home directory to
    expand, no environment variable set, a manager whose browser is gone. *)
Definition sample_expanduser (p : string) : string := p.

Definition sample_getenv (_ : string) : option string := None.

Definition sample_str_dict (_ : snapshot) : string := "{}".

Definition closed_browser : playwright_manager :=
  {| get_page := Raise (Exception "Error" "Browser has been closed") |}.

Definition sample_sync_webscraping (_ : playwright_manager) : result (option snapshot) :=
  Return None.

(** A backend that fails, one that answers, and one that reports its own
    failure in its answer. *)
Definition failing_completion (_ : request) : result string :=
  Raise (Exception "RateLimitError" "quota exceeded").

Definition answering_completion (_ : request) : result string :=
  Return "A short summary.".

Definition soft_failing_completion (_ : request) : result string :=
  Return "Formatting failed: the page is empty".

(** The entry that a [meta] tag adds to [meta_data], if it adds one: the
    [name], else the [property], mapped to the [content], both non-empty. *)
Definition meta_entry (meta_tag : node) : option (string * string) :=
  match or_else (Bs4.get "name" meta_tag) (Bs4.get "property" meta_tag),
        Bs4.get "content" meta_tag with
  | Some n, Some c => if Py.truthy n && Py.truthy c then Some (n, c) else None
  | _, _ => None
  end.

(** A paragraph, and two [meta] tags for the same name. *)
Definition plain_paragraph : node := Tag "p" [] [] [NavigableString "x"].

Definition meta_first : node :=
  Tag "meta" [("name", "description"); ("content", "first")] [] [].

Definition meta_second : node :=
  Tag "meta" [("property", "description"); ("content", "second")] [] [].

(** A page whose navigation fails in every attempt. *)
Definition failing_obs : attempt_obs :=
  {| wait_for_load_state := Raise (Exception "Error" "net::ERR_CONNECTION_RESET");
     page_title := Return "";
     page_url := "https://example.com/";
     page_content := Return [];
     page_title_again := Return "" |}.

Definition failing_page : page :=
  {| attempt_view := fun _ => failing_obs; late_content := Return [] |}.

(** A blank page that loads: its URL has no host. *)
Definition blank_obs : attempt_obs :=
  {| wait_for_load_state := Return ();
     page_title := Return "";
     page_url := "about:blank";
     page_content := Return [];
     page_title_again := Return "" |}.

Definition blank_page : page :=
  {| attempt_view := fun _ => blank_obs; late_content := Return [] |}.

(** The trace of a call that fails in each of its three attempts. *)
Definition three_failures : list event :=
  [WaitForLoadState 10000; SleepBackoff; WaitForLoadState 10000; SleepBackoff;
   WaitForLoadState 10000].

(** The exception of [str + None]. *)
Definition no_host_error : exn :=
  Exception "TypeError" "can only concatenate str (not NoneType) to str".

(** The test of [get_formatted_content] on a tag and its [parents], apart
    from the check against [unique_text]: a tag of the block set, no ignored
    class on it or on an ancestor, no child of the block set, a text that is
    not blank. *)
Definition is_leaf_block (tp : node * list node) : bool :=
  is_block tp.1
  && (negb (has_ignored_class tp.1) && negb (existsb has_ignored_class tp.2))
  && negb (existsb is_block (Bs4.children tp.1))
  && Py.truthy (Py.strip (Bs4.get_text tp.1)).

(** A cookie banner around a paragraph, and the same text twice in
    different case. *)
Definition banner : node :=
  Tag "div" [] ["ch2-dialog"] [Tag "p" [] [] [NavigableString "We use cookies"]].

Definition shouted_twice : soup :=
  [Tag "h1" [] [] [NavigableString "Hello"]; Tag "p" [] [] [NavigableString " HELLO "]].

(** A backend that refuses a user message of more than 8000 characters. *)
Definition picky_completion (req : request) : result string :=
  if String.length (user_content req) <=? Backend.max_context_chars
  then answering_completion req
  else failing_completion req.

(** The phrase that sends [save_file] back to the markup. *)
Definition sentinel : string := "Main content not found".

(** A manager whose page serves, after the attempts, a body with a long
    text. *)
Definition long_text : string :=
  "This page has a body with clearly more than fifty characters of text in it.".

Definition late_page : page :=
  {| attempt_view := fun _ => stalled_obs;
     late_content := Return [Tag "body" [] [] [NavigableString long_text]] |}.

(** Anchors of the three kinds: root-relative, on the page's origin, and
    elsewhere. *)
Definition sample_anchors : soup :=
  [Tag "a" [("href", "/about")] [] [];
   Tag "a" [("href", "https://example.com/contact")] [] [];
   Tag "a" [("href", "https://other.org/")] [] [];
   Tag "a" [] [] [NavigableString "no target"]].

(** The list [lines] of the backend version of [_format_scrape_result], and
    the list [parts] of the sync version, for a snapshot. *)
Definition backend_lines (d : snapshot) : list string :=
  ((if Py.truthy (title d) then ["Title: " +:+ title d] else [])
   ++ (if Py.truthy (main_content d)
       then [nl +:+ "Main Content:"; Py.strip (main_content d)] else [])
   ++ (if Py.truthy (formatted_content d)
       then [nl +:+ "Formatted Content:"; Py.strip (formatted_content d)] else [])
   ++ match paragraphs d with
      | [] => []
      | ps => [nl +:+ "Paragraphs:"] ++ filter (fun p => Py.truthy p) (Py.strip <$> ps)
      end).

Definition sync_parts (d : snapshot) : list string :=
  ((if Py.truthy (title d) then ["Title: " +:+ title d] else [])
   ++ (if Py.truthy (main_content d)
       then [nl +:+ "Main Content:" +:+ nl +:+ Py.strip (main_content d)] else [])
   ++ (if Py.truthy (formatted_content d)
       then [nl +:+ "Formatted Content:" +:+ nl +:+ Py.strip (formatted_content d)] else [])
   ++ match paragraphs d with
      | [] => []
      | paras =>
          [nl +:+ "Paragraphs:" +:+ nl +:+
           Py.join nl (filter (fun p => Py.truthy p) (Py.strip <$> paras))]
      end).

(** A snapshot with a title, a main region and a blank paragraph. *)
Definition sample_snapshot : snapshot :=
  {| url := "https://example.com/";
     title := "Example";
     main_content := " The main text. ";
     paragraphs := ["  "];
     headings := [];
     meta_data := ∅;
     internal_links := [];
     formatted_content := "" |}.

(** Induction on markup trees, with the hypothesis for every child. *)
Section NodeInduction.

Variable P : node -> Prop.
Hypothesis P_string : ∀ s, P (NavigableString s).
Hypothesis P_tag : ∀ nm attrs cls cs, Forall P cs → P (Tag nm attrs cls cs).

Fixpoint node_induction (n : node) : P n :=
  match n with
  | NavigableString s => P_string s
  | Tag nm attrs cls cs =>
      P_tag nm attrs cls cs
        ((fix go (l : list node) : Forall P l :=
            match l with
            | [] => @List.Forall_nil node P
            | c :: l' => @List.Forall_cons node P c l' (node_induction c) (go l')
            end) cs)
  end.

End NodeInduction.

(** * Properties *)

(** ** Sample evaluations *)

Example lower_ex : Py.lower "Formatting FAILED: x" = "formatting failed: x".
Proof. reflexivity. Qed.

Example strip_ex : Py.strip (" a b " +:+ nl) = "a b".
Proof. reflexivity. Qed.

Example split_ex : Py.split "/" "/a//b" = [""; "a"; ""; "b"].
Proof. reflexivity. Qed.

Example dirname_ex : Os.dirname "log/agent_output.txt" = "log" ∧ Os.dirname "/x" = "/".
Proof. split; reflexivity. Qed.

Example splitext_ex :
  Os.splitext_ext "a/b.d/c.CSV" = ".CSV" ∧ Os.splitext_ext "a/b.d/.bashrc" = "".
Proof. split; reflexivity. Qed.

Example key_ex :
  map Os.key ["a/b/c"; "./a//b/c"; "a/x/../b/c"; "/a/b/c"; "../c"; "/../c"]
  = ["a/b/c"; "a/b/c"; "a/b/c"; "/a/b/c"; "../c"; "/c"].
Proof. reflexivity. Qed.

Example upto_ex : Os.upto 2 false "log//sub/./deeper" = "log//sub".
Proof. reflexivity. Qed.

Example hostname_ex :
  (Urllib.hostname <$> match Urllib.urlparse "https://user:pw@Example.COM:8080/a?x#y" with
                       | Return r => Some r
                       | Raise _ => None
                       end) = Some (Some "example.com").
Proof. reflexivity. Qed.

(** ** Internal links *)

(** C1: on the page [https://example.com/page], an anchor whose [href] is
    [https://example.com.evil.com/login] passes the test
    [href.startswith(base_url)], so [get_internal_links] returns a link whose
    host is not the host of the page. *)
Theorem get_internal_links_foreign_host (urljoin : string -> string -> result string) :
  get_internal_links urljoin [evil_anchor] "https://example.com/page"
    = Return ["https://example.com.evil.com/login"]
  ∧ host_of "https://example.com.evil.com/login" = Some "example.com.evil.com"
  ∧ host_of "https://example.com/page" = Some "example.com".
Proof. repeat split; reflexivity. Qed.

(** What does hold of every link: it was resolved from a root-relative
    [href], or it begins with [scheme://hostname] of the page. *)
Lemma internal_links_loop_shape urljoin base_url (a_tags : list node) :
  ∀ acc links link,
    internal_links_loop urljoin base_url a_tags acc = Return links →
    link ∈ links →
    link ∈ acc
    ∨ (∃ href, Py.startswith "/" href = true ∧ urljoin base_url href = Return link)
    ∨ Py.startswith base_url link = true.
Proof.
  induction a_tags as [|a a_tags IH]; intros acc links link.
  - simpl. intros [= <-] Hin. by left.
  - cbn [internal_links_loop]. set (href := default "" (Bs4.get "href" a)).
    destruct (Py.startswith "/" href) eqn:Hroot.
    + destruct (urljoin base_url href) as [full_url|e] eqn:Hjoin; [|done].
      cbn [bind]. intros Hloop Hin.
      destruct (IH _ _ _ Hloop Hin) as [Hacc|Hnew]; [|by right].
      apply elem_of_app in Hacc as [Hacc|Hacc]; [by left|].
      apply list_elem_of_singleton in Hacc as ->. right; left. by exists href.
    + destruct (Py.startswith base_url href) eqn:Hbase.
      * intros Hloop Hin. destruct (IH _ _ _ Hloop Hin) as [Hacc|Hnew]; [|by right].
        apply elem_of_app in Hacc as [Hacc|Hacc]; [by left|].
        apply list_elem_of_singleton in Hacc as ->. by right; right.
      * apply IH.
Qed.

(** X24: every link that [get_internal_links] returns was resolved by
    [urljoin] from an [href] that begins with a slash, or begins with
    [scheme://hostname] of the page. *)
Lemma get_internal_links_shape urljoin sp u links link :
  get_internal_links urljoin sp u = Return links →
  link ∈ links →
  ∃ base_url, base_url_of u = Return base_url ∧
    ((∃ href, Py.startswith "/" href = true ∧ urljoin base_url href = Return link)
     ∨ Py.startswith base_url link = true).
Proof.
  unfold get_internal_links. destruct (base_url_of u) as [b|e]; simpl; [|done].
  intros Hloop Hin. exists b. split; [done|].
  destruct (internal_links_loop_shape _ _ _ _ _ _ Hloop Hin) as [Hnil|Hshape]; [|done].
  by apply elem_of_nil in Hnil.
Qed.

(** ** Formatted content *)

(** A loop invariant carries over a left fold. *)
Lemma foldl_invariant {A B} (f : A → B → A) (P : A → Prop) (l : list B) :
  (∀ a b, b ∈ l → P a → P (f a b)) → ∀ a, P a → P (foldl f a l).
Proof.
  induction l as [|b l IH]; intros Hstep a Ha; simpl; [done|].
  apply IH.
  - intros a' b' Hb'. apply Hstep. by right.
  - apply Hstep; [by left|done].
Qed.

Lemma formatted_step_emitted visited st tp :
  tp ∈ visited →
  (∃ tags, emitted_by visited st tags) →
  ∃ tags, emitted_by visited (formatted_step st tp) tags.
Proof.
  intros Hin [tags (Hfa & Hnd & Hut & Hall)].
  destruct st as [fa ut], tp as [tag parents]. unfold formatted_step.
  destruct (is_block tag) eqn:Hb; [|by exists tags].
  destruct (negb (has_ignored_class tag) && negb (existsb has_ignored_class parents));
    [|by exists tags].
  destruct (existsb is_block (Bs4.children tag)) eqn:Hc; simpl; [by exists tags|].
  fold (block_text tag).
  destruct (Py.truthy (block_text tag)) eqn:Ht; simpl; [|by exists tags].
  case_bool_decide as Hseen; simpl; [by exists tags|].
  exists (tags ++ [tag]). simpl in *. repeat split.
  - by rewrite fmap_app, Hfa.
  - rewrite fmap_app. apply NoDup_app. split; [done|]. split.
    + intros x Hx Hx'. apply list_elem_of_singleton in Hx'. subst x.
      apply list_elem_of_fmap in Hx as (t & Ht' & Hin'). apply Hseen.
      simpl in Ht'. rewrite Ht'. by apply Hut.
    + apply NoDup_singleton.
  - intros t Ht'. apply elem_of_app in Ht' as [Ht'|Ht'].
    + apply elem_of_union. left. by apply Hut.
    + apply list_elem_of_singleton in Ht'. subst t. apply elem_of_union. right.
      by apply elem_of_singleton.
  - apply Forall_app. split; [done|]. apply Forall_singleton. repeat split; try done.
    apply list_elem_of_fmap. by exists (tag, parents).
Qed.

(** Every block of [formatted_article] is the text of a block tag that has
    no block tag among its children, and no two blocks are the same up to
    case. *)
Lemma formatted_article_emitters sp :
  ∃ tags, emitted_by (Bs4.walk_soup sp)
            (foldl formatted_step ([], ∅) (Bs4.walk_soup sp)) tags.
Proof.
  apply (foldl_invariant formatted_step
           (fun st => ∃ tags, emitted_by (Bs4.walk_soup sp) st tags)).
  - intros st tp Hin Hinv. by apply formatted_step_emitted.
  - exists []. repeat split; simpl; try done.
    + apply NoDup_nil_2.
    + intros t Ht. by apply elem_of_nil in Ht.
Qed.

(** C2, as stated, fails: the text of one block may hold the same line
    twice. *)
Lemma formatted_content_repeats_line :
  ¬ no_duplicate_lines (get_formatted_content [repeated_line_paragraph]).
Proof.
  unfold no_duplicate_lines.
  assert (Py.lower <$> lines (get_formatted_content [repeated_line_paragraph])
          = ["x"; "x"; "y "; ""]) as -> by (vm_compute; reflexivity).
  intros Hnd. apply NoDup_cons in Hnd as [Hx _]. apply Hx. by left.
Qed.

(** C2, amended: the list [formatted_article] holds one entry per emitted
    block, the non-empty trimmed text of a tag followed by a space and a
    newline; [formattedContent] is the concatenation of these entries; and no
    two emitted blocks have texts that are the same up to case. *)
Theorem formatted_content_distinct_blocks (sp : soup) :
  ∃ tags : list node,
    Forall (fun t => t ∈ Bs4.find_all_tags sp) tags
    ∧ formatted_article sp = (fun t => block_line (Py.strip (Bs4.get_text t))) <$> tags
    ∧ get_formatted_content sp = Py.concat (formatted_article sp)
    ∧ NoDup ((fun t => Py.lower (Py.strip (Bs4.get_text t))) <$> tags)
    ∧ Forall (fun t => Py.truthy (Py.strip (Bs4.get_text t)) = true) tags.
Proof.
  destruct (formatted_article_emitters sp) as [tags (Hfa & Hnd & _ & Hall)].
  exists tags. repeat split; try done.
  - eapply Forall_impl; [exact Hall|]. by intros t (? & _).
  - eapply Forall_impl; [exact Hall|]. by intros t (_ & _ & _ & ?).
Qed.

(** C4, as stated, fails: the list contributes the block although a
    paragraph lies below it, two levels down. *)
Lemma block_emitted_above_block_descendant :
  head (Bs4.walk_soup [nested_list]) = Some (nested_list, [])
  ∧ (formatted_step ([], ∅) (nested_list, [])).1 = [block_line "x"]
  ∧ formatted_article [nested_list] = [block_line "x"]
  ∧ nested_paragraph ∈ descendants nested_list
  ∧ is_block nested_paragraph = true
  ∧ has_block_descendant nested_list = true.
Proof.
  repeat split; try (vm_compute; reflexivity).
  unfold descendants; simpl. right. by left.
Qed.

(** C4, amended: every emitted block is the trimmed text of a tag of the
    block set none of whose children (direct children only) has a tag of the
    block set. *)
Theorem emitted_block_has_no_block_child (sp : soup) (block : string) :
  block ∈ formatted_article sp →
  ∃ tag, tag ∈ Bs4.find_all_tags sp
    ∧ is_block tag = true
    ∧ existsb is_block (Bs4.children tag) = false
    ∧ block = block_line (Py.strip (Bs4.get_text tag)).
Proof.
  intros Hin. destruct (formatted_article_emitters sp) as [tags (Hfa & _ & _ & Hall)].
  unfold formatted_article in Hin. rewrite Hfa in Hin.
  apply list_elem_of_fmap in Hin as (tag & -> & Htag).
  rewrite Forall_forall in Hall. destruct (Hall tag Htag) as (Hv & Hb & Hc & _).
  exists tag. by repeat split.
Qed.

Lemma emitted_block_has_no_block_child_witness :
  block_line "x" ∈ formatted_article [nested_list]
  ∧ ∃ tag, tag ∈ Bs4.find_all_tags [nested_list]
    ∧ is_block tag = true
    ∧ existsb is_block (Bs4.children tag) = false
    ∧ block_line "x" = block_line (Py.strip (Bs4.get_text tag)).
Proof.
  split; [vm_compute; left|].
  apply (emitted_block_has_no_block_child [nested_list] (block_line "x")).
  vm_compute. left.
Defined.

(** ** The order of removal and extraction *)

Lemma walk_tag ps nm attrs cls cs :
  Bs4.walk ps (Tag nm attrs cls cs)
  = (Tag nm attrs cls cs, ps) :: flat_map (Bs4.walk (Tag nm attrs cls cs :: ps)) cs.
Proof. reflexivity. Qed.

Lemma decompose_node_tag nm attrs cls cs :
  decompose_node (Tag nm attrs cls cs)
  = if str_in nm noise_tags then []
    else [Tag nm attrs cls (flat_map decompose_node cs)].
Proof. reflexivity. Qed.

(** No noise tag is left below what remains of a node. *)
Lemma decompose_node_clean (n : node) :
  ∀ ps, Forall (fun tp => is_noise tp.1 = false)
          (flat_map (Bs4.walk ps) (decompose_node n)).
Proof.
  induction n as [s|nm attrs cls cs IH] using node_induction; intros ps.
  - simpl. constructor.
  - rewrite decompose_node_tag. destruct (str_in nm noise_tags) eqn:Hnm; simpl.
    { constructor. }
    rewrite app_nil_r. constructor; [exact Hnm|].
    generalize (Tag nm attrs cls (flat_map decompose_node cs) :: ps). intros ps'.
    clear Hnm. induction IH as [|c cs' Hc _ IHcs]; simpl; [constructor|].
    rewrite flat_map_app. apply Forall_app. split; [apply Hc|apply IHcs].
Qed.

Lemma decompose_noise_clean (sp : soup) :
  Forall (fun t => is_noise t = false) (Bs4.find_all_tags (decompose_noise sp)).
Proof.
  unfold Bs4.find_all_tags, Bs4.walk_soup, decompose_noise.
  apply Forall_fmap.
  induction sp as [|n sp IH]; simpl; [constructor|].
  rewrite flat_map_app. apply Forall_app. split; [apply decompose_node_clean|exact IH].
Qed.

(** C3, as stated, fails: with the main region inside a [header], the
    selector finds its text in the tree as parsed, and the snapshot has an
    empty [main_content]. *)
Lemma main_content_read_after_removal :
  page_content main_in_header_obs = Return main_in_header
  ∧ get_main_content main_in_header = "This is the main content of the page."
  ∧ extract sample_urljoin main_in_header_obs = Return main_in_header_snapshot
  ∧ main_content main_in_header_snapshot = "".
Proof. repeat split. Qed.

(** What [extract] returns is read from the tree that is left once the noise
    tags are removed. *)
Lemma extract_reads_pruned_tree urljoin (o : attempt_obs) (content : snapshot) :
  extract urljoin o = Return content →
  ∃ parsed,
    page_content o = Return parsed
    ∧ Forall (fun t => is_noise t = false) (Bs4.find_all_tags (decompose_noise parsed))
    ∧ main_content content = get_main_content (decompose_noise parsed)
    ∧ paragraphs content = get_paragraphs (decompose_noise parsed)
    ∧ headings content = get_headings (decompose_noise parsed)
    ∧ meta_data content = get_meta_data (decompose_noise parsed)
    ∧ get_internal_links urljoin (decompose_noise parsed) (page_url o)
      = Return (internal_links content)
    ∧ formatted_content content = get_formatted_content (decompose_noise parsed).
Proof.
  unfold extract. destruct (page_content o) as [parsed|e]; simpl; [|done].
  destruct (page_title_again o) as [t|e]; simpl; [|done].
  destruct (get_internal_links urljoin (decompose_noise parsed) (page_url o))
    as [links|e] eqn:Hlinks; simpl; [|done].
  intros [= <-]. exists parsed. simpl.
  split; [done|]. split; [apply decompose_noise_clean|]. by repeat split.
Qed.

(** The only snapshot that an [except] clause returns is the degraded one,
    and it does so for a timeout. *)
Lemma handle_snapshot (attempt : nat) (o : attempt_obs) (e : exn) (content : snapshot) :
  handle attempt o e = Finished (Return (Some content)) →
  content = timeout_snapshot (page_url o) ∧ ∃ msg, e = PlaywrightTimeoutError msg.
Proof.
  destruct e as [msg|cls msg]; simpl.
  - intros [= <-]. split; [done|]. by exists msg.
  - by case_decide.
Qed.

(** C3, amended: an attempt that produces a snapshot either was cut short by
    a timeout raised in the [try] block, and the snapshot is the degraded one
    whose views are empty whatever the markup; or it removed the noise tags
    first and computed every view, [main_content] included, from the tree
    that is left, in which no [aside], [header], [nav] or [footer] remains. *)
Theorem views_read_pruned_tree urljoin (attempt : nat) (o : attempt_obs)
    (content : snapshot) :
  attempt_body urljoin attempt o = Finished (Return (Some content)) →
  (content = timeout_snapshot (page_url o)
   ∧ ∃ msg, wait_for_load_state o = Raise (PlaywrightTimeoutError msg)
            ∨ page_title o = Raise (PlaywrightTimeoutError msg)
            ∨ extract urljoin o = Raise (PlaywrightTimeoutError msg))
  ∨ (extract urljoin o = Return content
     ∧ ∃ parsed,
         page_content o = Return parsed
         ∧ Forall (fun t => is_noise t = false)
             (Bs4.find_all_tags (decompose_noise parsed))
         ∧ main_content content = get_main_content (decompose_noise parsed)
         ∧ paragraphs content = get_paragraphs (decompose_noise parsed)
         ∧ headings content = get_headings (decompose_noise parsed)
         ∧ meta_data content = get_meta_data (decompose_noise parsed)
         ∧ get_internal_links urljoin (decompose_noise parsed) (page_url o)
           = Return (internal_links content)
         ∧ formatted_content content = get_formatted_content (decompose_noise parsed)).
Proof.
  unfold attempt_body.
  destruct (wait_for_load_state o) as [[]|e] eqn:Hwait.
  2:{ intros [-> [msg ->]]%handle_snapshot. left. split; [done|]. exists msg. by left. }
  destruct (page_title o) as [t|e] eqn:Htitle.
  2:{ intros [-> [msg ->]]%handle_snapshot. left. split; [done|].
      exists msg. right. by left. }
  destruct (Py.contains "cloudflare" (Py.lower t)); [done|].
  destruct (extract urljoin o) as [content'|e] eqn:Hextract.
  - intros [= <-]. right. split; [done|]. by apply extract_reads_pruned_tree.
  - intros [-> [msg ->]]%handle_snapshot. left. split; [done|].
    exists msg. right. by right.
Qed.

Lemma views_read_pruned_tree_witness :
  attempt_body sample_urljoin 0 main_in_header_obs
  = Finished (Return (Some main_in_header_snapshot))
  ∧ ((main_in_header_snapshot = timeout_snapshot "https://example.com/"
      ∧ ∃ msg, Return () = Raise (PlaywrightTimeoutError msg)
               ∨ Return "Example" = Raise (PlaywrightTimeoutError msg)
               ∨ extract sample_urljoin main_in_header_obs
                 = Raise (PlaywrightTimeoutError msg))
     ∨ (extract sample_urljoin main_in_header_obs = Return main_in_header_snapshot
        ∧ ∃ parsed,
            Return main_in_header = Return parsed
            ∧ Forall (fun t => is_noise t = false)
                (Bs4.find_all_tags (decompose_noise parsed))
            ∧ "" = get_main_content (decompose_noise parsed)
            ∧ [] = get_paragraphs (decompose_noise parsed)
            ∧ [] = get_headings (decompose_noise parsed)
            ∧ ∅ = get_meta_data (decompose_noise parsed)
            ∧ get_internal_links sample_urljoin (decompose_noise parsed)
                "https://example.com/"
              = Return []
            ∧ "" = get_formatted_content (decompose_noise parsed))).
Proof.
  split; [reflexivity|].
  apply (views_read_pruned_tree sample_urljoin 0 main_in_header_obs main_in_header_snapshot).
  reflexivity.
Defined.

(** The same of a whole call: the snapshot that [webscraping] returns was
    produced by one of its attempts. *)
Lemma webscraping_loop_snapshot urljoin (pg : page) (content : snapshot) :
  ∀ attempts trace,
    webscraping_loop urljoin pg attempts = (Return (Some content), trace) →
    ∃ attempt, attempt ∈ attempts
               ∧ attempt_body urljoin attempt (attempt_view pg attempt)
                 = Finished (Return (Some content)).
Proof.
  induction attempts as [|attempt attempts IH]; intros trace; [done|].
  cbn [webscraping_loop].
  destruct (attempt_body urljoin attempt (attempt_view pg attempt)) as [r|sleep] eqn:Hbody.
  - intros [= -> _]. exists attempt. split; [by left|done].
  - destruct (webscraping_loop urljoin pg attempts) as [r trace'] eqn:Hloop.
    intros [= -> _]. destruct (IH _ eq_refl) as (a & Hin & Ha).
    exists a. split; [by right|done].
Qed.

Lemma webscraping_snapshot_of_attempt urljoin (pm : playwright_manager)
    (content : snapshot) trace :
  webscraping urljoin pm = (Return (Some content), trace) →
  ∃ pg attempt,
    get_page pm = Return pg ∧ attempt < max_retries
    ∧ attempt_body urljoin attempt (attempt_view pg attempt)
      = Finished (Return (Some content)).
Proof.
  unfold webscraping. destruct (get_page pm) as [pg|e]; [|done].
  intros (attempt & Hin & Hbody)%webscraping_loop_snapshot.
  exists pg, attempt. split; [done|]. split; [|done].
  apply elem_of_seq in Hin. lia.
Qed.

(** ** The retry loop *)

Section RetryLoop.

Variable urljoin : string -> string -> result string.

(** Between two attempts the loop sleeps, and does nothing else. *)
Lemma attempt_body_sleeps attempt o ev :
  attempt_body urljoin attempt o = NextAttempt ev → is_wait ev = false.
Proof.
  assert (Hh : ∀ e, handle attempt o e = NextAttempt ev → is_wait ev = false).
  { intros e. unfold handle. destruct e; [done|]. case_decide; [done|]. by intros [= <-]. }
  unfold attempt_body.
  destruct (wait_for_load_state o); [|by apply Hh].
  destruct (page_title o) as [t|]; [|by apply Hh].
  destruct (Py.contains "cloudflare" (Py.lower t)); [by intros [= <-]|].
  destruct (extract urljoin o); [done|by apply Hh].
Qed.

Lemma attempt_body_timeout attempt o msg :
  wait_for_load_state o = Raise (PlaywrightTimeoutError msg) →
  attempt_body urljoin attempt o
  = Finished (Return (Some (timeout_snapshot (page_url o)))).
Proof. intros Hw. unfold attempt_body. by rewrite Hw. Qed.

Lemma attempt_body_challenge attempt o u t :
  wait_for_load_state o = Return u →
  page_title o = Return t →
  Py.contains "cloudflare" (Py.lower t) = true →
  attempt_body urljoin attempt o = NextAttempt (Sleep 5).
Proof. intros Hw Ht Hc. unfold attempt_body. by rewrite Hw, Ht, Hc. Qed.

(** The loop from any point on: attempts that go on to the next one, then an
    attempt whose wait times out. *)
Lemma webscraping_loop_timeout pg (before after : list nat) k msg :
  (∀ i, i ∈ before →
        ∃ sleep, attempt_body urljoin i (attempt_view pg i) = NextAttempt sleep) →
  wait_for_load_state (attempt_view pg k) = Raise (PlaywrightTimeoutError msg) →
  ∃ trace,
    webscraping_loop urljoin pg (before ++ k :: after)
    = (Return (Some (timeout_snapshot (page_url (attempt_view pg k)))), trace)
    ∧ waits trace = S (length before)
    ∧ last trace = Some (WaitForLoadState 10000).
Proof.
  intros Hbefore Hk. induction before as [|i before IH]; simpl.
  - rewrite (attempt_body_timeout _ _ msg Hk). by eexists.
  - destruct (Hbefore i) as [sleep Hi]; [by left|]. rewrite Hi.
    destruct IH as (trace & -> & Hwaits & Hlast).
    { intros j Hj. apply Hbefore. by right. }
    eexists. split; [done|]. split.
    + unfold waits in *. rewrite filter_cons_True by done.
      rewrite filter_cons_False by (by rewrite (attempt_body_sleeps _ _ _ Hi)).
      simpl. by rewrite Hwaits.
    + destruct trace as [|ev trace]; [done|]. exact Hlast.
Qed.

End RetryLoop.

Lemma seq_split_at (k n : nat) :
  k < n → seq 0 n = seq 0 k ++ k :: seq (S k) (n - S k).
Proof.
  intros Hk. replace n with (k + S (n - S k)) at 1 by lia.
  by rewrite seq_app.
Qed.

(** C8: when the wait for network-idle of an attempt times out, whatever
    challenge waits or retried failures came before it, [webscraping] returns
    the degraded snapshot with the title [timeout waiting for page] and empty
    views, and the timed-out wait is the last thing the call does. *)
Theorem timeout_returns_degraded_snapshot urljoin pm pg (k : nat) msg :
  get_page pm = Return pg →
  k < max_retries →
  (∀ i, i < k →
        ∃ sleep, attempt_body urljoin i (attempt_view pg i) = NextAttempt sleep) →
  wait_for_load_state (attempt_view pg k) = Raise (PlaywrightTimeoutError msg) →
  ∃ content trace,
    webscraping urljoin pm = (Return (Some content), trace)
    ∧ title content = "timeout waiting for page"
    ∧ main_content content = ""
    ∧ paragraphs content = []
    ∧ headings content = []
    ∧ meta_data content = ∅
    ∧ internal_links content = []
    ∧ formatted_content content = ""
    ∧ waits trace = S k
    ∧ last trace = Some (WaitForLoadState 10000).
Proof.
  intros Hpg Hk Hbefore Htimeout. unfold webscraping. rewrite Hpg.
  rewrite (seq_split_at k max_retries Hk).
  destruct (webscraping_loop_timeout urljoin pg (seq 0 k)
              (seq (S k) (max_retries - S k)) k msg) as (trace & -> & Hwaits & Hlast).
  - intros i Hi. apply Hbefore. apply elem_of_seq in Hi. lia.
  - exact Htimeout.
  - eexists _, trace. split; [done|]. rewrite length_seq in Hwaits. by repeat split.
Qed.

Lemma timeout_returns_degraded_snapshot_witness :
  ∃ content trace,
    webscraping sample_urljoin {| get_page := Return challenge_then_stalled_page |}
    = (Return (Some content), trace)
    ∧ title content = "timeout waiting for page"
    ∧ main_content content = ""
    ∧ paragraphs content = []
    ∧ headings content = []
    ∧ meta_data content = ∅
    ∧ internal_links content = []
    ∧ formatted_content content = ""
    ∧ waits trace = 2
    ∧ last trace = Some (WaitForLoadState 10000).
Proof.
  apply (timeout_returns_degraded_snapshot sample_urljoin
           {| get_page := Return challenge_then_stalled_page |}
           challenge_then_stalled_page 1 "Timeout 10000ms exceeded.").
  - reflexivity.
  - unfold max_retries. lia.
  - intros i Hi. assert (i = 0) as -> by lia. exists (Sleep 5). reflexivity.
  - reflexivity.
Defined.

(** C10: when every one of the three attempts loads a page whose title
    contains [cloudflare], the loop runs out in its challenge branch (three
    waits, three sleeps of five seconds) and [webscraping] returns [None]. *)
Theorem challenge_exhausts_to_none urljoin pm pg :
  get_page pm = Return pg →
  (∀ i, i < max_retries →
        wait_for_load_state (attempt_view pg i) = Return ()
        ∧ ∃ t, page_title (attempt_view pg i) = Return t
               ∧ Py.contains "cloudflare" (Py.lower t) = true) →
  webscraping urljoin pm
  = (Return None,
     [WaitForLoadState 10000; Sleep 5; WaitForLoadState 10000; Sleep 5;
      WaitForLoadState 10000; Sleep 5]).
Proof.
  intros Hpg Hall. unfold webscraping. rewrite Hpg. simpl.
  assert (Hi : ∀ i, i < max_retries →
                    attempt_body urljoin i (attempt_view pg i) = NextAttempt (Sleep 5)).
  { intros i Hlt. destruct (Hall i Hlt) as (Hw & t & Ht & Hc).
    by apply (attempt_body_challenge urljoin i _ () t). }
  rewrite !Hi by (unfold max_retries; lia). reflexivity.
Qed.

Lemma challenge_exhausts_to_none_witness :
  webscraping sample_urljoin {| get_page := Return challenge_page |}
  = (Return None,
     [WaitForLoadState 10000; Sleep 5; WaitForLoadState 10000; Sleep 5;
      WaitForLoadState 10000; Sleep 5]).
Proof.
  apply (challenge_exhausts_to_none sample_urljoin
           {| get_page := Return challenge_page |} challenge_page).
  - reflexivity.
  - intros i Hi. split; [reflexivity|].
    exists "Just a moment... | Cloudflare". split; reflexivity.
Defined.

(** ** Strings *)

Lemma append_cons (x : ascii) (a b : string) : String x a +:+ b = String x (a +:+ b).
Proof. reflexivity. Qed.

Lemma append_assoc (a b c : string) : (a +:+ b) +:+ c = a +:+ (b +:+ c).
Proof. induction a as [|x a IH]; [done|]. by rewrite !append_cons, IH. Qed.

Lemma append_empty_r (a : string) : a +:+ "" = a.
Proof. induction a as [|x a IH]; [done|]. by rewrite append_cons, IH. Qed.

(** ** The file sink *)

Lemma only_adds_dirs_refl (st : fs) : only_adds_dirs st st.
Proof. intros k. by left. Qed.

Lemma only_adds_dirs_insert (st st' : fs) (d : string) :
  st !! d = None → only_adds_dirs (<[d := Dir]> st) st' → only_adds_dirs st st'.
Proof.
  intros Hd Hadd k. destruct (Hadd k) as [Hk|[Hk1 Hk2]].
  - destruct (decide (k = d)) as [->|Hne].
    + right. by rewrite Hk, lookup_insert_eq.
    + left. by rewrite Hk, lookup_insert_ne.
  - right. split; [|done]. destruct (decide (k = d)) as [->|Hne].
    + by rewrite lookup_insert_eq in Hk1.
    + by rewrite lookup_insert_ne in Hk1.
Qed.

Lemma lookup_place_None (st : fs) abs cur :
  Os.lookup_place st abs cur = None → st !! Os.key_of abs cur = None.
Proof. unfold Os.lookup_place. by destruct (forallb _ cur). Qed.

(** [os.makedirs] keeps every entry and adds directories only, whether it
    returns or raises. *)
Lemma mkdirs_only_adds name abs (comps : list string) :
  ∀ n cur (st st' : fs) r,
    Os.mkdirs name abs n cur comps st = (r, st') → only_adds_dirs st st'.
Proof.
  induction comps as [|c comps IH]; intros n cur st st' r; cbn [Os.mkdirs].
  - intros [= <- <-]. apply only_adds_dirs_refl.
  - destruct (Os.has_nul c); [intros [= <- <-]; apply only_adds_dirs_refl|].
    destruct (Os.lookup_place st abs (Os.step abs cur c)) as [[data|]|] eqn:Hlook.
    + intros [= <- <-]. apply only_adds_dirs_refl.
    + apply IH.
    + intros Hrun. apply lookup_place_None in Hlook.
      eapply only_adds_dirs_insert; [exact Hlook|]. by eapply IH.
Qed.

Lemma prepare_dirs_only_adds (p : string) (st st' : fs) r :
  prepare_dirs p st = (r, st') → only_adds_dirs st st'.
Proof.
  unfold prepare_dirs. destruct (Py.truthy (Os.dirname p)).
  - apply mkdirs_only_adds.
  - intros [= <- <-]. apply only_adds_dirs_refl.
Qed.

(** [open] that returns: the target is a regular file, holding what it held
    when opened for appending and nothing otherwise; it was no directory;
    no other entry has changed. *)
Lemma open_returns (p : string) (append : bool) (st st1 : fs) :
  Os.open_ p append st = (Return (), st1) →
  st1 !! Os.key p = Some (File (if append then contents st p else ""))
  ∧ st !! Os.key p ≠ Some Dir
  ∧ ∀ k, k ≠ Os.key p → st1 !! k = st !! k.
Proof.
  unfold Os.open_, contents, Os.read.
  destruct (Os.has_nul p); [done|]. destruct (negb (Py.truthy p)); [done|].
  destruct (Os.names_directory p).
  { by destruct (Os.find_dirs p (Os.isabs p) [] (Os.components p) st). }
  destruct (Os.find_dirs p (Os.isabs p) [] (removelast (Os.components p)) st); [|done].
  destruct (st !! Os.key p) as [[data|]|] eqn:Hlook; [|done|].
  - destruct append; intros [= <-].
    + by rewrite Hlook.
    + rewrite lookup_insert_eq. split; [done|]. split; [done|].
      intros k Hk. by rewrite lookup_insert_ne.
  - intros [= <-]. rewrite lookup_insert_eq. split; [by destruct append|].
    split; [done|]. intros k Hk. by rewrite lookup_insert_ne.
Qed.

(** [open] that raises has changed nothing. *)
Lemma open_raises (p : string) (append : bool) (st st1 : fs) e :
  Os.open_ p append st = (Raise e, st1) → st1 = st.
Proof.
  unfold Os.open_.
  destruct (Os.has_nul p); [by intros [= _ <-]|].
  destruct (negb (Py.truthy p)); [by intros [= _ <-]|].
  destruct (Os.names_directory p).
  { destruct (Os.find_dirs p (Os.isabs p) [] (Os.components p) st); by intros [= _ <-]. }
  destruct (Os.find_dirs p (Os.isabs p) [] (removelast (Os.components p)) st);
    [|by intros [= _ <-]].
  destruct (st !! Os.key p) as [[data|]|]; [done|by intros [= _ <-]|done].
Qed.

Lemma write_file (p text data : string) (st : fs) :
  st !! Os.key p = Some (File data) →
  Os.write p text st = (Return (), <[Os.key p := File (data +:+ text)]> st).
Proof. unfold Os.write. by intros ->. Qed.

(** The steps of a call of [file_sink] that returns. *)
Lemma file_sink_returns (p text : string) (append : bool) (st st' : fs) :
  file_sink p text append st = (Return (), st') →
  ∃ st0 st1 : fs,
    prepare_dirs p st = (Return (), st0)
    ∧ Os.open_ p append st0 = (Return (), st1)
    ∧ st' = <[Os.key p := File ((if append then contents st p else "")
                                +:+ text +:+ terminator append text)]> st1.
Proof.
  unfold file_sink, io_bind. fold (prepare_dirs p).
  destruct (prepare_dirs p st) as [[[]|e0] st0] eqn:Hdirs; [|done].
  destruct (Os.open_ p append st0) as [[[]|e1] st1] eqn:Hopen; [|done].
  destruct (open_returns _ _ _ _ Hopen) as (Hfile & Hnodir & _).
  assert (Hold : contents st0 p = contents st p).
  { unfold contents, Os.read.
    destruct (prepare_dirs_only_adds _ _ _ _ Hdirs (Os.key p)) as [->|[_ Hdir]]; done. }
  rewrite Hold in Hfile. set (old := if append then contents st p else "") in *.
  rewrite (write_file _ _ _ _ Hfile). unfold terminator.
  destruct (append && negb (Py.endswith_char (ascii_of_nat 10) text)).
  - rewrite (write_file p nl (old +:+ text)) by by rewrite lookup_insert_eq.
    intros [= <-]. exists st0, st1. split; [done|]. split; [done|].
    by rewrite insert_insert_eq, append_assoc.
  - intros [= <-]. exists st0, st1. split; [done|]. split; [done|].
    by rewrite append_empty_r.
Qed.

(** What the target holds after a call of [file_sink] that returns. *)
Lemma file_sink_result (p text : string) (append : bool) (st st' : fs) :
  file_sink p text append st = (Return (), st') →
  Os.read p st'
  = Some ((if append then contents st p else "") +:+ text +:+ terminator append text).
Proof.
  intros Hrun. destruct (file_sink_returns _ _ _ _ _ Hrun) as (st0 & st1 & _ & _ & ->).
  unfold Os.read. by rewrite lookup_insert_eq.
Qed.

(** A call of [file_sink] that raises has raised in its first step or in
    [open], and has added directories only. *)
Lemma file_sink_raises (p text : string) (append : bool) (st st' : fs) e :
  file_sink p text append st = (Raise e, st') ↔
  prepare_dirs p st = (Raise e, st')
  ∨ ∃ st0, prepare_dirs p st = (Return (), st0) ∧ Os.open_ p append st0 = (Raise e, st').
Proof.
  unfold file_sink, io_bind. fold (prepare_dirs p).
  destruct (prepare_dirs p st) as [[[]|e0] st0] eqn:Hdirs.
  2:{ split; [by left|]. intros [?|(? & ? & _)]; done. }
  destruct (Os.open_ p append st0) as [[[]|e1] st1] eqn:Hopen.
  2:{ split.
      - intros [= <- <-]. right. by exists st0.
      - intros [?|(? & [= <-] & ?)]; [done|]. congruence. }
  split.
  - unfold Os.write at 1. destruct (open_returns _ _ _ _ Hopen) as (-> & _ & _).
    destruct (append && _); [|done]. unfold Os.write. by rewrite lookup_insert_eq.
  - intros [?|(? & [= <-] & ?)]; [done|]. congruence.
Qed.

(** Whatever the outcome, [file_sink] keeps every entry but the target as it
    is and adds directories only; when it raises, the target is kept too. *)
Lemma file_sink_effect (p text : string) (append : bool) (st st' : fs) r :
  file_sink p text append st = (r, st') →
  (∀ k, k ≠ Os.key p → st' !! k = st !! k ∨ (st !! k = None ∧ st' !! k = Some Dir))
  ∧ (∀ e, r = Raise e → only_adds_dirs st st').
Proof.
  intros Hrun. destruct r as [[]|e].
  - destruct (file_sink_returns _ _ _ _ _ Hrun) as (st0 & st1 & Hdirs & Hopen & ->).
    split; [|done]. intros k Hk. rewrite lookup_insert_ne by done.
    destruct (open_returns _ _ _ _ Hopen) as (_ & _ & ->); [|done].
    by apply (prepare_dirs_only_adds _ _ _ _ Hdirs).
  - assert (Hadd : only_adds_dirs st st').
    { apply file_sink_raises in Hrun as [Hdirs|(st0 & Hdirs & Hopen)].
      - by eapply prepare_dirs_only_adds.
      - apply open_raises in Hopen as ->. by eapply prepare_dirs_only_adds. }
    split; [|done]. intros k _. apply Hadd.
Qed.

(** C9: whenever the write block returns, an overwrite followed by a read
    gives back the text as it is; an append leaves what the file held, then
    the text, then a newline exactly when the text does not end in one; and
    two appends of [a] and [b] to an empty or absent file leave [a], newline,
    [b], newline. *)
Theorem file_sink_round_trip (st : fs) (p text : string) :
  (∀ st' : fs, file_sink p text false st = (Return (), st') → Os.read p st' = Some text)
  ∧ (∀ st' : fs,
       file_sink p text true st = (Return (), st') →
       Os.read p st'
       = Some (contents st p +:+ text +:+
               (if Py.endswith_char (ascii_of_nat 10) text then "" else nl)))
  ∧ (∀ st1 st2 : fs,
       contents st p = "" →
       file_sink p "a" true st = (Return (), st1) →
       file_sink p "b" true st1 = (Return (), st2) →
       Os.read p st2 = Some ("a" +:+ nl +:+ "b" +:+ nl)).
Proof.
  split; [|split].
  - intros st' Hrun. rewrite (file_sink_result _ _ _ _ _ Hrun).
    unfold terminator. simpl. by rewrite append_empty_r.
  - intros st' Hrun. rewrite (file_sink_result _ _ _ _ _ Hrun).
    unfold terminator. simpl. by destruct (Py.endswith_char (ascii_of_nat 10) text).
  - intros st1 st2 Hempty Hrun1 Hrun2.
    rewrite (file_sink_result _ _ _ _ _ Hrun2). unfold contents at 1.
    rewrite (file_sink_result _ _ _ _ _ Hrun1), Hempty. reflexivity.
Qed.

Lemma file_sink_round_trip_witness :
  let p := "log/agent_output.txt" in
  let written := (file_sink p "hello" false ∅).2 in
  let appended := (file_sink p "hello" true written).2 in
  let st1 := (file_sink p "a" true ∅).2 in
  let st2 := (file_sink p "b" true st1).2 in
  Os.read p written = Some "hello"
  ∧ Os.read p appended = Some ("hello" +:+ "hello" +:+ nl)
  ∧ Os.read p st2 = Some ("a" +:+ nl +:+ "b" +:+ nl).
Proof.
  intros p written appended st1 st2. split; [|split].
  - apply (proj1 (file_sink_round_trip ∅ p "hello") written). vm_compute; reflexivity.
  - apply (proj1 (proj2 (file_sink_round_trip written p "hello")) appended).
    vm_compute; reflexivity.
  - apply (proj2 (proj2 (file_sink_round_trip ∅ p "hello")) st1 st2);
      vm_compute; reflexivity.
Defined.

(** ** save_file *)

Lemma is_space_lower_char (c : ascii) : Py.is_space (Py.lower_char c) = Py.is_space c.
Proof. by destruct c as [[] [] [] [] [] [] [] []]. Qed.

Lemma truthy_lower (s : string) : Py.truthy (Py.lower s) = Py.truthy s.
Proof. by destruct s. Qed.

Lemma lower_rstrip (s : string) : Py.lower (Py.rstrip s) = Py.rstrip (Py.lower s).
Proof.
  induction s as [|c s IH]; [done|]. simpl.
  rewrite <- IH, truthy_lower, is_space_lower_char.
  by destruct (Py.is_space c && negb (Py.truthy (Py.rstrip s))).
Qed.

Lemma startswith_rstrip (p : string) :
  ∀ s, ends_in_text p = true → Py.startswith p s = true →
       Py.startswith p (Py.rstrip s) = true.
Proof.
  induction p as [|a p IH]; intros s Hend Hp; [done|].
  destruct s as [|b s]; [done|]. simpl in Hp. case_decide as Hab; [subst b|done].
  simpl. destruct p as [|a' p].
  - simpl in Hend. apply negb_true_iff in Hend. rewrite Hend. simpl.
    by rewrite decide_True.
  - specialize (IH s Hend Hp).
    destruct (Py.rstrip s) as [|b' r] eqn:Hr; [done|].
    rewrite andb_false_r. simpl. rewrite decide_True by done. exact IH.
Qed.

(** An in-band failure notice survives the trimming of the answer. *)
Lemma soft_error_survives_strip (p text : string) :
  ends_in_text p = true →
  match p with String c _ => Py.is_space c = false | EmptyString => False end →
  Py.startswith p (Py.lower text) = true →
  Py.startswith p (Py.lower (Py.strip text)) = true.
Proof.
  intros Hend Hfirst Hp. unfold Py.strip.
  assert (Py.lstrip text = text) as ->.
  { destruct p as [|a p]; [done|]. destruct text as [|b text]; [done|].
    simpl in Hp. case_decide as Hab; [|done]. simpl.
    by rewrite <- is_space_lower_char, <- Hab, Hfirst. }
  rewrite lower_rstrip. by apply startswith_rstrip.
Qed.

Section SaveFileProperties.

Variable urljoin : string -> string -> result string.
Variable sync_webscraping : playwright_manager -> result (option snapshot).
Variable expanduser : string -> string.
Variable getenv : string -> option string.
Variable str_dict : snapshot -> string.
Variable completion : request -> result string.

Variables (content file_path : option string) (append : bool).
Variables (pm : playwright_manager) (model_name : option string).

Let target_path : string := expanduser (path_or_default file_path).

Let backend_save_file : io artifact :=
  Backend.save_file urljoin expanduser getenv str_dict completion
    content file_path append pm model_name.

Let sync_save_file : io artifact :=
  Sync.save_file sync_webscraping expanduser getenv str_dict completion
    content file_path append pm model_name.

(** The request each [save_file] sends for a context. *)
Let backend_request (context_text : string) : request :=
  Backend.build_request getenv target_path
    (Py.take Backend.max_context_chars context_text) model_name.

Let sync_request (context_text : string) : request :=
  Sync.build_request getenv target_path (Py.take (6 * 1000) context_text) model_name.

(** X17: the backend version keeps an in-band failure notice off the disk:
    when the answer begins with [formatting failed], whatever its case,
    [save_file] returns the error dict with the trimmed answer as message and
    the file system is as it was. *)
Lemma backend_soft_error_not_written (st : fs) (context_text text : string) :
  Backend.build_context urljoin str_dict content pm = Return context_text →
  completion (backend_request context_text) = Return text →
  Py.startswith "formatting failed" (Py.lower text) = true →
  backend_save_file st = (Return (error_result target_path (Py.strip text)), st).
Proof.
  intros Hctx Hresp Hsoft. unfold backend_save_file, Backend.save_file.
  rewrite Hctx. fold target_path. fold (backend_request context_text). rewrite Hresp.
  by rewrite (soft_error_survives_strip "formatting failed" text).
Qed.

(** C5: when the call to the backend raises, [save_file] (either version)
    returns the error dict whose message carries the text of the exception,
    and the file system is as it was before the call. *)
Theorem backend_failure_writes_nothing (st : fs) (e : exn) :
  (∀ context_text,
     Backend.build_context urljoin str_dict content pm = Return context_text →
     completion (backend_request context_text) = Raise e →
     backend_save_file st
     = (Return (error_result target_path ("formatting_failed: " +:+ str_exn e)), st))
  ∧ (∀ context_text,
       Sync.build_context sync_webscraping str_dict content pm = Return context_text →
       completion (sync_request context_text) = Raise e →
       sync_save_file st
       = (Return (error_result target_path ("formatting_failed: " +:+ str_exn e)), st)).
Proof.
  split; intros context_text Hctx Hraise.
  - unfold backend_save_file, Backend.save_file. rewrite Hctx.
    fold target_path. fold (backend_request context_text). by rewrite Hraise.
  - unfold sync_save_file, Sync.save_file. rewrite Hctx.
    fold target_path. fold (sync_request context_text). by rewrite Hraise.
Qed.

(** C7, amended: a call of [save_file] (either version) ends in one of three
    ways.  It returns the success dict with the path; or it returns the error
    dict with the path and a message, having left the file system alone; or
    it raises, and then the exception is the one that the extraction raised,
    or the one that directory creation or the write raised after the backend
    had answered. *)
Theorem save_file_outcomes (st : fs) :
  ((backend_save_file st).1 = Return (success_result target_path)
   ∨ (∃ msg, backend_save_file st = (Return (error_result target_path msg), st))
   ∨ (∃ e, (backend_save_file st).1 = Raise e
        ∧ (Backend.build_context urljoin str_dict content pm = Raise e
           ∨ ∃ context_text text,
               Backend.build_context urljoin str_dict content pm = Return context_text
               ∧ completion (backend_request context_text) = Return text
               ∧ (file_sink target_path (Py.strip text) append st).1 = Raise e)))
  ∧ ((sync_save_file st).1 = Return (success_result target_path)
     ∨ (∃ msg, sync_save_file st = (Return (error_result target_path msg), st))
     ∨ (∃ e, (sync_save_file st).1 = Raise e
          ∧ (Sync.build_context sync_webscraping str_dict content pm = Raise e
             ∨ ∃ context_text text,
                 Sync.build_context sync_webscraping str_dict content pm
                 = Return context_text
                 ∧ completion (sync_request context_text) = Return text
                 ∧ (file_sink target_path (Py.strip text) append st).1 = Raise e))).
Proof.
  split.
  - unfold backend_save_file, Backend.save_file.
    destruct (Backend.build_context urljoin str_dict content pm) as [ctx|e] eqn:Hctx.
    2:{ right; right. exists e. split; [done|by left]. }
    fold target_path. fold (backend_request ctx).
    destruct (completion (backend_request ctx)) as [text|e] eqn:Hresp.
    2:{ right; left. by eexists. }
    destruct (Py.startswith "formatting failed" (Py.lower (Py.strip text))).
    { right; left. by eexists. }
    unfold io_bind.
    destruct (file_sink target_path (Py.strip text) append st) as [[[]|e] st'] eqn:Hsink.
    + by left.
    + right; right. exists e. split; [done|]. right. exists ctx, text. by rewrite Hsink.
  - unfold sync_save_file, Sync.save_file.
    destruct (Sync.build_context sync_webscraping str_dict content pm) as [ctx|e] eqn:Hctx.
    2:{ right; right. exists e. split; [done|by left]. }
    fold target_path. fold (sync_request ctx).
    destruct (completion (sync_request ctx)) as [text|e] eqn:Hresp.
    2:{ right; left. by eexists. }
    unfold io_bind.
    destruct (file_sink target_path (Py.strip text) append st) as [[[]|e] st'] eqn:Hsink.
    + by left.
    + right; right. exists e. split; [done|]. right. exists ctx, text. by rewrite Hsink.
Qed.

End SaveFileProperties.

Lemma backend_failure_writes_nothing_witness :
  let st : fs := {["notes/out.txt" := File "kept"]} in
  Backend.save_file sample_urljoin sample_expanduser sample_getenv sample_str_dict
    failing_completion (Some "page text") (Some "notes/out.txt") false closed_browser None st
  = (Return (error_result "notes/out.txt" "formatting_failed: quota exceeded"), st)
  ∧ Sync.save_file sample_sync_webscraping sample_expanduser sample_getenv sample_str_dict
      failing_completion (Some "page text") (Some "notes/out.txt") false closed_browser None st
    = (Return (error_result "notes/out.txt" "formatting_failed: quota exceeded"), st).
Proof.
  intros st.
  destruct (backend_failure_writes_nothing sample_urljoin sample_sync_webscraping
              sample_expanduser sample_getenv sample_str_dict failing_completion
              (Some "page text") (Some "notes/out.txt") false closed_browser None st
              (Exception "RateLimitError" "quota exceeded")) as [Hbackend Hsync].
  split.
  - apply (Hbackend "page text"); reflexivity.
  - apply (Hsync "page text"); reflexivity.
Defined.

(** C6: the sync version has no check of the answer.  An answer that begins
    with [Formatting failed] is written to the file and the call reports
    success; the backend version, on the same input, returns the error dict
    and writes nothing. *)
Theorem sync_save_file_persists_soft_error :
  let call_sync :=
    Sync.save_file sample_sync_webscraping sample_expanduser sample_getenv sample_str_dict
      soft_failing_completion (Some "page text") (Some "notes.txt") false closed_browser None
      (∅ : fs) in
  Py.startswith "formatting failed" (Py.lower "Formatting failed: the page is empty") = true
  ∧ call_sync.1 = Return (success_result "notes.txt")
  ∧ Os.read "notes.txt" call_sync.2 = Some "Formatting failed: the page is empty"
  ∧ Backend.save_file sample_urljoin sample_expanduser sample_getenv sample_str_dict
      soft_failing_completion (Some "page text") (Some "notes.txt") false closed_browser None
      (∅ : fs)
    = (Return (error_result "notes.txt" "Formatting failed: the page is empty"), ∅).
Proof. repeat split; vm_compute; reflexivity. Qed.

(** C7, as stated, fails: exceptions do reach the caller.  With a regular
    file named [log] in the way, creating the directory of the default path
    raises; with no page to scrape, the extraction raises. *)
Lemma save_file_lets_exceptions_through :
  (Backend.save_file sample_urljoin sample_expanduser sample_getenv sample_str_dict
     answering_completion (Some "page text") None false closed_browser None
     ({["log" := File "a regular file"]} : fs)).1
  = Raise (Exception "FileExistsError" "log")
  ∧ (Sync.save_file sample_sync_webscraping sample_expanduser sample_getenv sample_str_dict
       answering_completion (Some "page text") None false closed_browser None
       ({["log" := File "a regular file"]} : fs)).1
    = Raise (Exception "FileExistsError" "log")
  ∧ (Backend.save_file sample_urljoin sample_expanduser sample_getenv sample_str_dict
       answering_completion None None false closed_browser None (∅ : fs)).1
    = Raise (Exception "Error" "Browser has been closed").
Proof. repeat split; vm_compute; reflexivity. Qed.

(** * Further properties of the code *)

(** ** The main content region *)

Lemma length_take (n : nat) (s : string) :
  String.length (Py.take n s) = n `min` String.length s.
Proof.
  revert s. induction n as [|n IH]; intros [|c s]; simpl; try done.
  by rewrite IH.
Qed.

Lemma longer_than_length (n : nat) (text : string) :
  longer_than n text = true → n < String.length text.
Proof.
  unfold longer_than. intros H. apply andb_prop in H as [_ H].
  by apply Nat.ltb_lt in H.
Qed.

Lemma try_selectors_source sels sp text :
  try_selectors sels sp = Some text →
  20 < String.length text
  ∧ ∃ t, t ∈ Bs4.find_all_tags sp ∧ text = Bs4.get_text_strip t.
Proof.
  induction sels as [|[k v] sels IH]; simpl; [done|].
  destruct (Bs4.find_attr k v sp) as [t|] eqn:Hfind; [|exact IH].
  destruct (longer_than 20 (Bs4.get_text_strip t)) eqn:Hlong; [|exact IH].
  intros [= <-]. split; [by apply longer_than_length|].
  exists t. split; [|done].
  unfold Bs4.find_attr in Hfind. apply head_Some_elem_of in Hfind.
  by apply list_elem_of_filter in Hfind as [_ ?].
Qed.

Lemma first_substantial_source tags text :
  first_substantial tags = Some text →
  ∃ t, t ∈ tags ∧ 100 < String.length (Bs4.get_text_strip t)
       ∧ text = Py.take 2000 (Bs4.get_text_strip t).
Proof.
  induction tags as [|t tags IH]; simpl; [done|].
  destruct (longer_than 100 (Bs4.get_text_strip t)) eqn:Hlong.
  - intros [= <-]. exists t. split; [by left|]. split; [by apply longer_than_length|done].
  - intros H. destruct (IH H) as (t' & Hin & Hlen & ->). exists t'. split; [by right|done].
Qed.

Lemma find_all_elem names sp t :
  t ∈ Bs4.find_all names sp → t ∈ Bs4.find_all_tags sp.
Proof. unfold Bs4.find_all. intros H. by apply list_elem_of_filter in H as [_ ?]. Qed.

(** X1: [get_main_content] never returns a short scrap.  Its result is
    empty, or it is longer than 20 characters and is the stripped text of a
    tag of the tree, or the first 2000 characters of a stripped text of more
    than 100 characters. *)
Theorem get_main_content_substantial (sp : soup) :
  get_main_content sp = ""
  ∨ (20 < String.length (get_main_content sp)
     ∧ ∃ t, t ∈ Bs4.find_all_tags sp
         ∧ (get_main_content sp = Bs4.get_text_strip t
            ∨ (100 < String.length (Bs4.get_text_strip t)
               ∧ get_main_content sp = Py.take 2000 (Bs4.get_text_strip t)))).
Proof.
  unfold get_main_content.
  destruct (try_selectors selectors sp) as [text|] eqn:Hsel.
  { right. destruct (try_selectors_source _ _ _ Hsel) as (Hlen & t & Hin & ->).
    split; [done|]. exists t. split; [done|by left]. }
  assert (Htier2 : ∀ t, t ∈ Bs4.find_all_tags sp →
            longer_than 20 (Bs4.get_text_strip t) = true →
            20 < String.length (Bs4.get_text_strip t)
            ∧ ∃ t', t' ∈ Bs4.find_all_tags sp
                ∧ (Bs4.get_text_strip t = Bs4.get_text_strip t'
                   ∨ (100 < String.length (Bs4.get_text_strip t')
                      ∧ Bs4.get_text_strip t = Py.take 2000 (Bs4.get_text_strip t')))).
  { intros t Hin Hlong. split; [by apply longer_than_length|].
    exists t. split; [done|by left]. }
  assert (Htier3 :
            match first_substantial (Bs4.find_all ["main"; "article"; "section"] sp) with
            | Some text => text
            | None => ""
            end = ""
            ∨ (20 < String.length
                      match first_substantial (Bs4.find_all ["main"; "article"; "section"] sp) with
                      | Some text => text
                      | None => ""
                      end
               ∧ ∃ t, t ∈ Bs4.find_all_tags sp
                   ∧ (match first_substantial (Bs4.find_all ["main"; "article"; "section"] sp) with
                      | Some text => text
                      | None => ""
                      end = Bs4.get_text_strip t
                      ∨ (100 < String.length (Bs4.get_text_strip t)
                         ∧ match first_substantial (Bs4.find_all ["main"; "article"; "section"] sp) with
                           | Some text => text
                           | None => ""
                           end = Py.take 2000 (Bs4.get_text_strip t))))).
  { destruct (first_substantial _) as [text|] eqn:Hfirst; [|by left]. right.
    destruct (first_substantial_source _ _ Hfirst) as (t & Hin & Hlen & ->).
    split; [rewrite length_take; lia|].
    exists t. split; [by eapply find_all_elem|]. by right. }
  destruct (Bs4.find "main" sp) as [t|] eqn:Hmain.
  - destruct (longer_than 20 (Bs4.get_text_strip t)) eqn:Hlong; [|exact Htier3].
    right. apply Htier2; [|done].
    unfold Bs4.find in Hmain. apply head_Some_elem_of in Hmain. by eapply find_all_elem.
  - destruct (Bs4.find "article" sp) as [t|] eqn:Hart; [|exact Htier3].
    destruct (longer_than 20 (Bs4.get_text_strip t)) eqn:Hlong; [|exact Htier3].
    right. apply Htier2; [|done].
    unfold Bs4.find in Hart. apply head_Some_elem_of in Hart. by eapply find_all_elem.
Qed.

(** ** Removal of the noise tags *)

(** A node below which no noise tag occurs is left as it is. *)
Lemma decompose_node_clean_id (n : node) :
  Forall (fun tp => is_noise tp.1 = false) (Bs4.walk [] n) →
  decompose_node n = [n].
Proof.
  assert (Hshift : ∀ m ps ps',
            Forall (fun tp => is_noise tp.1 = false) (Bs4.walk ps m) →
            Forall (fun tp => is_noise tp.1 = false) (Bs4.walk ps' m)).
  { induction m as [s|nm attrs cls cs IH] using node_induction; intros ps ps'; [done|].
    rewrite !walk_tag. intros H. apply Forall_cons in H as [Hhd Htl].
    apply Forall_cons. split; [done|].
    revert Htl. generalize (Tag nm attrs cls cs :: ps) (Tag nm attrs cls cs :: ps').
    intros qs qs'. induction IH as [|c cs' Hc _ IHcs]; simpl; [done|].
    rewrite !Forall_app. intros [H1 H2]. split; [by eapply Hc|by apply IHcs]. }
  induction n as [s|nm attrs cls cs IH] using node_induction; [done|].
  rewrite walk_tag, decompose_node_tag. intros H. apply Forall_cons in H as [Hhd Htl].
  simpl in Hhd. unfold is_noise in Hhd. simpl in Hhd. rewrite Hhd.
  do 2 f_equal.
  revert Htl. generalize (Tag nm attrs cls cs). intros top.
  induction IH as [|c cs' Hc _ IHcs]; simpl; [done|].
  rewrite Forall_app. intros [H1 H2].
  rewrite Hc by (by eapply Hshift). simpl. by rewrite IHcs.
Qed.

Lemma decompose_noise_clean_id (sp : soup) :
  Forall (fun t => is_noise t = false) (Bs4.find_all_tags sp) →
  decompose_noise sp = sp.
Proof.
  unfold Bs4.find_all_tags, Bs4.walk_soup, decompose_noise. rewrite Forall_fmap.
  induction sp as [|n sp IH]; simpl; [done|].
  rewrite Forall_app. intros [Hn Hsp].
  rewrite decompose_node_clean_id by exact Hn. simpl. by rewrite IH.
Qed.

(** X2: removing the noise tags a second time changes nothing, and a tree
    without [aside], [header], [nav] and [footer] is left as it is. *)
Theorem decompose_noise_idempotent (sp : soup) :
  decompose_noise (decompose_noise sp) = decompose_noise sp
  ∧ (Forall (fun t => is_noise t = false) (Bs4.find_all_tags sp) →
     decompose_noise sp = sp).
Proof.
  split; [|apply decompose_noise_clean_id].
  apply decompose_noise_clean_id, decompose_noise_clean.
Qed.

Lemma decompose_noise_idempotent_witness :
  Forall (fun t => is_noise t = false) (Bs4.find_all_tags [plain_paragraph])
  ∧ decompose_noise [plain_paragraph] = [plain_paragraph].
Proof.
  split; [vm_compute; repeat constructor|].
  apply (proj2 (decompose_noise_idempotent [plain_paragraph])).
  vm_compute; repeat constructor.
Defined.

(** ** Meta data *)

Lemma meta_step_entry (m : gmap string string) (meta_tag : node) :
  meta_step m meta_tag
  = match meta_entry meta_tag with
    | Some (n, c) => <[n := c]> m
    | None => m
    end.
Proof.
  unfold meta_step, meta_entry.
  destruct (or_else _ _) as [n|]; [|done].
  destruct (Bs4.get "content" meta_tag) as [c|]; [|done].
  by destruct (Py.truthy n && Py.truthy c).
Qed.

Lemma meta_entry_truthy meta_tag n c :
  meta_entry meta_tag = Some (n, c) → Py.truthy n = true ∧ Py.truthy c = true.
Proof.
  unfold meta_entry.
  destruct (or_else _ _) as [n'|]; [|done].
  destruct (Bs4.get "content" meta_tag) as [c'|]; [|done].
  destruct (Py.truthy n' && Py.truthy c') eqn:H; [|done].
  intros [= <- <-]. by apply andb_prop in H.
Qed.

(** X3: every entry of [meta_data] was written by a [meta] tag of the tree,
    and neither its key nor its value is empty. *)
Theorem get_meta_data_provenance (sp : soup) (n c : string) :
  get_meta_data sp !! n = Some c →
  Py.truthy n = true ∧ Py.truthy c = true
  ∧ ∃ meta_tag, meta_tag ∈ Bs4.find_all ["meta"] sp
      ∧ or_else (Bs4.get "name" meta_tag) (Bs4.get "property" meta_tag) = Some n
      ∧ Bs4.get "content" meta_tag = Some c.
Proof.
  unfold get_meta_data. revert n c.
  apply (foldl_invariant meta_step
           (fun m : gmap string string => ∀ n c, m !! n = Some c →
              Py.truthy n = true ∧ Py.truthy c = true
              ∧ ∃ meta_tag, meta_tag ∈ Bs4.find_all ["meta"] sp
                  ∧ or_else (Bs4.get "name" meta_tag) (Bs4.get "property" meta_tag) = Some n
                  ∧ Bs4.get "content" meta_tag = Some c)).
  - intros m tag Hin Hinv n c. rewrite meta_step_entry.
    destruct (meta_entry tag) as [[n' c']|] eqn:Hentry; [|by apply Hinv].
    destruct (decide (n' = n)) as [->|Hne].
    + rewrite lookup_insert_eq. intros [= ->].
      destruct (meta_entry_truthy _ _ _ Hentry) as [Hn Hc].
      split; [done|]. split; [done|]. exists tag. split; [done|].
      unfold meta_entry in Hentry.
      destruct (or_else _ _) as [n'|]; [|done].
      destruct (Bs4.get "content" tag) as [c'|]; [|done].
      destruct (Py.truthy n' && Py.truthy c'); [|done]. by inversion Hentry.
    + rewrite lookup_insert_ne by done. by apply Hinv.
  - intros n c H. by rewrite lookup_empty in H.
Qed.

Lemma get_meta_data_provenance_witness :
  get_meta_data [meta_first] !! "description" = Some "first"
  ∧ Py.truthy "description" = true ∧ Py.truthy "first" = true
  ∧ ∃ meta_tag, meta_tag ∈ Bs4.find_all ["meta"] [meta_first]
      ∧ or_else (Bs4.get "name" meta_tag) (Bs4.get "property" meta_tag) = Some "description"
      ∧ Bs4.get "content" meta_tag = Some "first".
Proof.
  split; [vm_compute; reflexivity|].
  apply (get_meta_data_provenance [meta_first] "description" "first").
  vm_compute; reflexivity.
Defined.

(** Tags that write other keys leave a key as it is. *)
Lemma foldl_meta_step_other (tags : list node) (n : string) :
  Forall (fun t => ∀ c, meta_entry t ≠ Some (n, c)) tags →
  ∀ m : gmap string string, foldl meta_step m tags !! n = m !! n.
Proof.
  induction 1 as [|t tags Ht _ IH]; intros m; simpl; [done|].
  rewrite IH, meta_step_entry. destruct (meta_entry t) as [[n' c']|] eqn:Hentry; [|done].
  rewrite lookup_insert_ne; [done|]. intros ->. by eapply Ht.
Qed.

(** X4: the last [meta] tag that writes a key wins.  When a tag writes the
    pair [(n, c)] and no later [meta] tag writes the key [n], the value of
    [n] in [meta_data] is [c], whatever earlier tags wrote. *)
Theorem get_meta_data_last_wins (sp : soup) (before after : list node)
    (meta_tag : node) (n c : string) :
  Bs4.find_all ["meta"] sp = before ++ meta_tag :: after →
  meta_entry meta_tag = Some (n, c) →
  Forall (fun t => ∀ c', meta_entry t ≠ Some (n, c')) after →
  get_meta_data sp !! n = Some c.
Proof.
  intros Htags Hentry Hafter. unfold get_meta_data. rewrite Htags, foldl_app. simpl.
  rewrite foldl_meta_step_other by done.
  rewrite meta_step_entry, Hentry. apply lookup_insert_eq.
Qed.

Lemma get_meta_data_last_wins_witness :
  get_meta_data [meta_first; meta_second] !! "description" = Some "second".
Proof.
  apply (get_meta_data_last_wins [meta_first; meta_second] [meta_first] [] meta_second
           "description" "second").
  - vm_compute; reflexivity.
  - vm_compute; reflexivity.
  - constructor.
Defined.

(** ** The retry loop, in general *)

Section RetryLoopCases.

Variable urljoin : string -> string -> result string.

(** The four ways an attempt can end. *)
Lemma attempt_body_cases (attempt : nat) (o : attempt_obs) :
  (∃ content, attempt_body urljoin attempt o = Finished (Return (Some content)))
  ∨ (∃ cls msg, attempt_body urljoin attempt o = Finished (Raise (Exception cls msg))
       ∧ attempt = max_retries - 1)
  ∨ (attempt_body urljoin attempt o = NextAttempt SleepBackoff
       ∧ attempt ≠ max_retries - 1)
  ∨ (attempt_body urljoin attempt o = NextAttempt (Sleep 5)
       ∧ ∃ t, wait_for_load_state o = Return ()
           ∧ page_title o = Return t
           ∧ Py.contains "cloudflare" (Py.lower t) = true).
Proof.
  assert (Hh : ∀ e,
    (∃ content, handle attempt o e = Finished (Return (Some content)))
    ∨ (∃ cls msg, handle attempt o e = Finished (Raise (Exception cls msg))
         ∧ attempt = max_retries - 1)
    ∨ (handle attempt o e = NextAttempt SleepBackoff ∧ attempt ≠ max_retries - 1)).
  { intros [msg|cls msg]; simpl.
    - left. by eexists.
    - case_decide; [right; left; by exists cls, msg|right; right; done]. }
  assert (Hh' : ∀ e body, body = handle attempt o e →
    (∃ content, body = Finished (Return (Some content)))
    ∨ (∃ cls msg, body = Finished (Raise (Exception cls msg)) ∧ attempt = max_retries - 1)
    ∨ (body = NextAttempt SleepBackoff ∧ attempt ≠ max_retries - 1)
    ∨ (body = NextAttempt (Sleep 5)
         ∧ ∃ t, wait_for_load_state o = Return ()
             ∧ page_title o = Return t
             ∧ Py.contains "cloudflare" (Py.lower t) = true)).
  { intros e body ->. destruct (Hh e) as [H|[H|H]]; auto. }
  unfold attempt_body.
  destruct (wait_for_load_state o) as [[]|e] eqn:Hw; [|by eapply Hh'].
  destruct (page_title o) as [t|e] eqn:Ht; [|by eapply Hh'].
  destruct (Py.contains "cloudflare" (Py.lower t)) eqn:Hc.
  { right; right; right. split; [done|]. by exists t. }
  destruct (extract urljoin o) as [content|e]; [|by eapply Hh'].
  left. by eexists.
Qed.

(** The loop over any list of attempts: it runs out, every attempt having
    gone on to the next, or the first attempt that finishes decides. *)
Lemma webscraping_loop_cases (pg : page) (l : list nat) :
  (webscraping_loop urljoin pg l).1 = Return None
  ∧ Forall (fun i => ∃ sleep, attempt_body urljoin i (attempt_view pg i) = NextAttempt sleep) l
  ∧ waits (webscraping_loop urljoin pg l).2 = length l
  ∨ ∃ before k after,
      l = before ++ k :: after
      ∧ Forall (fun i => ∃ sleep,
                  attempt_body urljoin i (attempt_view pg i) = NextAttempt sleep) before
      ∧ attempt_body urljoin k (attempt_view pg k)
        = Finished (webscraping_loop urljoin pg l).1
      ∧ waits (webscraping_loop urljoin pg l).2 = S (length before).
Proof.
  induction l as [|i l IH]; simpl.
  - left. by repeat split.
  - destruct (attempt_body urljoin i (attempt_view pg i)) as [r|sleep] eqn:Hi.
    + right. exists [], i, l. simpl. by repeat split.
    + destruct (webscraping_loop urljoin pg l) as [r trace]. simpl in *.
      assert (Hw : waits (WaitForLoadState 10000 :: sleep :: trace) = S (waits trace)).
      { unfold waits. rewrite filter_cons_True by done.
        by rewrite filter_cons_False by (by rewrite (attempt_body_sleeps _ _ _ _ Hi)). }
      rewrite Hw. destruct IH as [(Hr & Hall & Hlen)|(before & k & after & -> & Hb & Hk & Hlen)].
      * left. split; [done|]. split; [|by rewrite Hlen].
        constructor; [by exists sleep|done].
      * right. exists (i :: before), k, after. split; [done|]. split.
        { constructor; [by exists sleep|done]. }
        split; [done|]. simpl. by rewrite Hlen.
Qed.

End RetryLoopCases.

(** The outcome of a call on a page, by the first attempt that finishes. *)
Lemma webscraping_first_finished urljoin (pm : playwright_manager) (pg : page) :
  get_page pm = Return pg →
  waits (webscraping urljoin pm).2 ≤ max_retries
  ∧ ((webscraping urljoin pm).1 = Return None
     ∧ (∀ i, i < max_retries →
          ∃ sleep, attempt_body urljoin i (attempt_view pg i) = NextAttempt sleep)
     ∧ waits (webscraping urljoin pm).2 = max_retries
     ∨ ∃ k, k < max_retries
         ∧ (∀ i, i < k →
              ∃ sleep, attempt_body urljoin i (attempt_view pg i) = NextAttempt sleep)
         ∧ attempt_body urljoin k (attempt_view pg k) = Finished (webscraping urljoin pm).1
         ∧ waits (webscraping urljoin pm).2 = S k).
Proof.
  intros Hpg. unfold webscraping. rewrite Hpg.
  destruct (webscraping_loop_cases urljoin pg (seq 0 max_retries))
    as [(Hr & Hall & Hlen)|(before & k & after & Hsplit & Hb & Hk & Hlen)].
  - rewrite Hlen, length_seq. split; [done|]. left. split; [done|]. split; [|done].
    intros i Hi. rewrite Forall_forall in Hall. apply Hall, elem_of_seq. lia.
  - assert (before = seq 0 k ∧ k < max_retries) as [-> Hlt].
    { assert (Hk' : (seq 0 max_retries) !! length before = Some k).
      { rewrite Hsplit. by rewrite list_lookup_middle. }
      apply lookup_seq in Hk' as [Hk1 Hk2]. simpl in Hk1. split; [|lia].
      assert (Htake : take (length before) (seq 0 max_retries) = before).
      { rewrite Hsplit. by rewrite take_app_length. }
      rewrite <- Htake, take_seq. f_equal. lia. }
    rewrite length_seq in Hlen. rewrite Hlen. split; [lia|]. right.
    exists k. split; [done|]. split; [|done].
    intros i Hi. rewrite Forall_forall in Hb. apply Hb, elem_of_seq. lia.
Qed.


(** X5: how a call of [webscraping] on a page ends.  Either all three
    attempts went on to the next one and the result is [None]; or some
    attempt [k] is the first to finish, its outcome is the outcome of the
    call, and the call waited for network-idle [k + 1] times.  In both cases
    there are at most three waits. *)
Theorem webscraping_outcomes urljoin (pm : playwright_manager) (pg : page) :
  get_page pm = Return pg →
  waits (webscraping urljoin pm).2 ≤ max_retries
  ∧ ((webscraping urljoin pm).1 = Return None
     ∧ (∀ i, i < max_retries →
          ∃ sleep, attempt_body urljoin i (attempt_view pg i) = NextAttempt sleep)
     ∧ waits (webscraping urljoin pm).2 = max_retries
     ∨ ∃ k, k < max_retries
         ∧ (∀ i, i < k →
              ∃ sleep, attempt_body urljoin i (attempt_view pg i) = NextAttempt sleep)
         ∧ attempt_body urljoin k (attempt_view pg k) = Finished (webscraping urljoin pm).1
         ∧ waits (webscraping urljoin pm).2 = S k).
Proof. apply webscraping_first_finished. Qed.

Lemma webscraping_outcomes_witness :
  let pm := {| get_page := Return challenge_then_stalled_page |} in
  waits (webscraping sample_urljoin pm).2 ≤ max_retries
  ∧ ((webscraping sample_urljoin pm).1 = Return None
     ∧ (∀ i, i < max_retries →
          ∃ sleep, attempt_body sample_urljoin i
                     (attempt_view challenge_then_stalled_page i) = NextAttempt sleep)
     ∧ waits (webscraping sample_urljoin pm).2 = max_retries
     ∨ ∃ k, k < max_retries
         ∧ (∀ i, i < k →
              ∃ sleep, attempt_body sample_urljoin i
                         (attempt_view challenge_then_stalled_page i) = NextAttempt sleep)
         ∧ attempt_body sample_urljoin k (attempt_view challenge_then_stalled_page k)
           = Finished (webscraping sample_urljoin pm).1
         ∧ waits (webscraping sample_urljoin pm).2 = S k).
Proof.
  intros pm.
  apply (webscraping_outcomes sample_urljoin pm challenge_then_stalled_page).
  reflexivity.
Defined.

(** X6: [webscraping] returns [None] only when its third attempt loaded a
    page whose title contains [cloudflare]; the call then waited for
    network-idle three times. *)
Theorem none_only_after_challenge urljoin (pm : playwright_manager) (trace : list event) :
  webscraping urljoin pm = (Return None, trace) →
  ∃ pg t,
    get_page pm = Return pg
    ∧ wait_for_load_state (attempt_view pg 2) = Return ()
    ∧ page_title (attempt_view pg 2) = Return t
    ∧ Py.contains "cloudflare" (Py.lower t) = true
    ∧ waits trace = 3.
Proof.
  intros Hrun. destruct (get_page pm) as [pg|e] eqn:Hpg.
  2:{ unfold webscraping in Hrun. by rewrite Hpg in Hrun. }
  destruct (webscraping_first_finished urljoin pm pg Hpg) as [_ Hcases].
  rewrite Hrun in Hcases. simpl in Hcases.
  destruct Hcases as [(_ & Hall & Hlen)|(k & Hk & _ & Hfin & _)].
  - destruct (Hall 2) as [sleep Hlast]; [unfold max_retries; lia|].
    destruct (attempt_body_cases urljoin 2 (attempt_view pg 2))
      as [[c Hc]|[(cls & msg & Hc & _)|[[_ Hne]|(_ & t & Hw & Ht & Hcf)]]];
      try congruence; [done|].
    by exists pg, t.
  - destruct (attempt_body_cases urljoin k (attempt_view pg k))
      as [[c Hc]|[(cls & msg & Hc & _)|[[Hc _]|(Hc & _)]]]; congruence.
Qed.

Lemma none_only_after_challenge_witness :
  ∃ pg t,
    get_page {| get_page := Return challenge_page |} = Return pg
    ∧ wait_for_load_state (attempt_view pg 2) = Return ()
    ∧ page_title (attempt_view pg 2) = Return t
    ∧ Py.contains "cloudflare" (Py.lower t) = true
    ∧ waits [WaitForLoadState 10000; Sleep 5; WaitForLoadState 10000; Sleep 5;
             WaitForLoadState 10000; Sleep 5] = 3.
Proof.
  apply (none_only_after_challenge sample_urljoin {| get_page := Return challenge_page |}).
  reflexivity.
Defined.

(** X7: an exception leaves [webscraping] only in two ways: [get_page]
    raised it, before any wait; or the third attempt raised it, after three
    waits.  It is never Playwright's [TimeoutError] in the second case. *)
Theorem raise_only_from_last_attempt urljoin (pm : playwright_manager)
    (e : exn) (trace : list event) :
  webscraping urljoin pm = (Raise e, trace) →
  (get_page pm = Raise e ∧ trace = [])
  ∨ ∃ pg cls msg,
      get_page pm = Return pg
      ∧ e = Exception cls msg
      ∧ attempt_body urljoin 2 (attempt_view pg 2) = Finished (Raise e)
      ∧ waits trace = 3.
Proof.
  intros Hrun. destruct (get_page pm) as [pg|e'] eqn:Hpg.
  2:{ unfold webscraping in Hrun. rewrite Hpg in Hrun. left. by inversion Hrun. }
  right. destruct (webscraping_first_finished urljoin pm pg Hpg) as [_ Hcases].
  rewrite Hrun in Hcases. simpl in Hcases.
  destruct Hcases as [(Hnone & _)|(k & Hk & _ & Hfin & Hlen)]; [done|].
  destruct (attempt_body_cases urljoin k (attempt_view pg k))
    as [[c Hc]|[(cls & msg & Hc & Hlast)|[[Hc _]|(Hc & _)]]]; try congruence.
  unfold max_retries in Hlast. simpl in Hlast. subst k.
  exists pg, cls, msg. split; [done|]. split; [congruence|]. by split.
Qed.

Lemma raise_only_from_last_attempt_witness :
  (get_page {| get_page := Return failing_page |}
   = Raise (Exception "Error" "net::ERR_CONNECTION_RESET") ∧ three_failures = [])
  ∨ ∃ pg cls msg,
      get_page {| get_page := Return failing_page |} = Return pg
      ∧ Exception "Error" "net::ERR_CONNECTION_RESET" = Exception cls msg
      ∧ attempt_body sample_urljoin 2 (attempt_view pg 2)
        = Finished (Raise (Exception "Error" "net::ERR_CONNECTION_RESET"))
      ∧ waits three_failures = 3.
Proof.
  apply (raise_only_from_last_attempt sample_urljoin {| get_page := Return failing_page |}).
  reflexivity.
Defined.

(** X8: when the wait for network-idle raises an exception other than a
    timeout in each of the three attempts, the first two are swallowed, each
    followed by a backoff sleep, and the third is raised to the caller. *)
Theorem persistent_failure_raises_last urljoin (pm : playwright_manager) (pg : page) :
  get_page pm = Return pg →
  (∀ i, i < max_retries →
        ∃ cls msg, wait_for_load_state (attempt_view pg i) = Raise (Exception cls msg)) →
  ∃ cls msg,
    wait_for_load_state (attempt_view pg 2) = Raise (Exception cls msg)
    ∧ webscraping urljoin pm = (Raise (Exception cls msg), three_failures).
Proof.
  intros Hpg Hall. unfold webscraping. rewrite Hpg. simpl.
  destruct (Hall 0) as (c0 & m0 & H0); [unfold max_retries; lia|].
  destruct (Hall 1) as (c1 & m1 & H1); [unfold max_retries; lia|].
  destruct (Hall 2) as (c2 & m2 & H2); [unfold max_retries; lia|].
  exists c2, m2. split; [done|].
  unfold attempt_body. by rewrite H0, H1, H2.
Qed.

Lemma persistent_failure_raises_last_witness :
  ∃ cls msg,
    wait_for_load_state (attempt_view failing_page 2) = Raise (Exception cls msg)
    ∧ webscraping sample_urljoin {| get_page := Return failing_page |}
      = (Raise (Exception cls msg), three_failures).
Proof.
  apply (persistent_failure_raises_last sample_urljoin
           {| get_page := Return failing_page |} failing_page).
  - reflexivity.
  - intros i Hi. exists "Error", "net::ERR_CONNECTION_RESET". reflexivity.
Defined.

(** X9: a page whose URL has no host (such as [about:blank]) never yields a
    snapshot once it has loaded: [get_internal_links] raises a [TypeError]
    whatever the markup, in every attempt, and [webscraping] raises it after
    the third. *)
Theorem hostless_page_raises urljoin (pm : playwright_manager) (pg : page) :
  get_page pm = Return pg →
  (∀ i, i < max_retries →
        wait_for_load_state (attempt_view pg i) = Return ()
        ∧ (∃ t, page_title (attempt_view pg i) = Return t
                ∧ Py.contains "cloudflare" (Py.lower t) = false)
        ∧ (∃ parsed, page_content (attempt_view pg i) = Return parsed)
        ∧ (∃ t, page_title_again (attempt_view pg i) = Return t)
        ∧ ∃ u, Urllib.urlparse (page_url (attempt_view pg i)) = Return u
               ∧ Urllib.hostname u = None) →
  (∀ i sp, i < max_retries →
           get_internal_links urljoin sp (page_url (attempt_view pg i)) = Raise no_host_error)
  ∧ webscraping urljoin pm = (Raise no_host_error, three_failures).
Proof.
  intros Hpg Hall.
  assert (Hlinks : ∀ i sp, i < max_retries →
            get_internal_links urljoin sp (page_url (attempt_view pg i))
            = Raise no_host_error).
  { intros i sp Hi. destruct (Hall i Hi) as (_ & _ & _ & _ & u & Hu & Hhost).
    unfold get_internal_links, base_url_of. by rewrite Hu; simpl; rewrite Hhost. }
  split; [exact Hlinks|].
  assert (Hbody : ∀ i, i < max_retries →
            attempt_body urljoin i (attempt_view pg i)
            = handle i (attempt_view pg i) no_host_error).
  { intros i Hi. destruct (Hall i Hi) as (Hw & (t & Ht & Hc) & (sp & Hsp) & (t' & Ht') & _).
    unfold attempt_body, extract. rewrite Hw, Ht, Hc, Hsp. simpl. rewrite Ht'. simpl.
    by rewrite (Hlinks i _ Hi). }
  unfold webscraping. rewrite Hpg. simpl.
  by rewrite !Hbody by (unfold max_retries; lia).
Qed.

Lemma hostless_page_raises_witness :
  (∀ i sp, i < max_retries →
           get_internal_links sample_urljoin sp (page_url (attempt_view blank_page i))
           = Raise no_host_error)
  ∧ webscraping sample_urljoin {| get_page := Return blank_page |}
    = (Raise no_host_error, three_failures).
Proof.
  apply (hostless_page_raises sample_urljoin {| get_page := Return blank_page |} blank_page).
  - reflexivity.
  - intros i Hi. split; [reflexivity|]. split; [by exists ""|].
    split; [by exists []|]. split; [by exists ""|].
    eexists. split; reflexivity.
Defined.

(** ** Formatted content: which blocks are emitted *)

Lemma formatted_step_leaf (st : list string * gset string) (tp : node * list node) :
  formatted_step st tp
  = if is_leaf_block tp && negb (bool_decide (Py.lower (block_text tp.1) ∈ st.2))
    then (st.1 ++ [block_line (block_text tp.1)], st.2 ∪ {[Py.lower (block_text tp.1)]})
    else st.
Proof.
  destruct st as [fa ut], tp as [tag parents]. unfold formatted_step, is_leaf_block, block_text.
  simpl. destruct (is_block tag); [|done].
  destruct (negb (has_ignored_class tag) && negb (existsb has_ignored_class parents)); [|done].
  destruct (existsb is_block (Bs4.children tag)); [done|]. simpl.
  by destruct (Py.truthy (Py.strip (Bs4.get_text tag))).
Qed.

(** X10: every emitted block is the text of a tag that passes the whole
    test: a block tag, with no ignored class on it or on any of its
    ancestors, with no block tag among its children, and with a text that is
    not blank. *)
Theorem emitted_block_is_leaf_block (sp : soup) (block : string) :
  block ∈ formatted_article sp →
  ∃ tag parents,
    (tag, parents) ∈ Bs4.walk_soup sp
    ∧ block = block_line (Py.strip (Bs4.get_text tag))
    ∧ is_block tag = true
    ∧ has_ignored_class tag = false
    ∧ existsb has_ignored_class parents = false
    ∧ existsb is_block (Bs4.children tag) = false
    ∧ Py.truthy (Py.strip (Bs4.get_text tag)) = true.
Proof.
  unfold formatted_article. revert block.
  apply (foldl_invariant formatted_step
           (fun st => ∀ block, block ∈ st.1 →
              ∃ tag parents,
                (tag, parents) ∈ Bs4.walk_soup sp
                ∧ block = block_line (Py.strip (Bs4.get_text tag))
                ∧ is_block tag = true
                ∧ has_ignored_class tag = false
                ∧ existsb has_ignored_class parents = false
                ∧ existsb is_block (Bs4.children tag) = false
                ∧ Py.truthy (Py.strip (Bs4.get_text tag)) = true)).
  - intros st [tag parents] Hin Hinv block. rewrite formatted_step_leaf.
    destruct (is_leaf_block (tag, parents)) eqn:Hleaf; simpl; [|by apply Hinv].
    destruct (negb _); [|by apply Hinv]. simpl.
    intros Hb. apply elem_of_app in Hb as [Hb|Hb]; [by apply Hinv|].
    apply list_elem_of_singleton in Hb as ->.
    unfold is_leaf_block in Hleaf. simpl in Hleaf.
    apply andb_prop in Hleaf as [Hleaf Htext]. apply andb_prop in Hleaf as [Hleaf Hchild].
    apply andb_prop in Hleaf as [Hblock Hign]. apply andb_prop in Hign as [Hign1 Hign2].
    apply negb_true_iff in Hchild, Hign1, Hign2.
    exists tag, parents. by repeat split.
  - intros block Hb. by apply elem_of_nil in Hb.
Qed.

Lemma emitted_block_is_leaf_block_witness :
  block_line "x" ∈ formatted_article [banner; plain_paragraph]
  ∧ ∃ tag parents,
      (tag, parents) ∈ Bs4.walk_soup [banner; plain_paragraph]
      ∧ block_line "x" = block_line (Py.strip (Bs4.get_text tag))
      ∧ is_block tag = true
      ∧ has_ignored_class tag = false
      ∧ existsb has_ignored_class parents = false
      ∧ existsb is_block (Bs4.children tag) = false
      ∧ Py.truthy (Py.strip (Bs4.get_text tag)) = true.
Proof.
  split; [vm_compute; left|].
  apply (emitted_block_is_leaf_block [banner; plain_paragraph] (block_line "x")).
  vm_compute. left.
Defined.

(** The loop only adds: blocks and seen texts stay. *)
Lemma formatted_fold_grows (l : list (node * list node)) :
  ∀ st, (∀ b, b ∈ st.1 → b ∈ (foldl formatted_step st l).1)
        ∧ (∀ x, x ∈ st.2 → x ∈ (foldl formatted_step st l).2).
Proof.
  induction l as [|tp l IH]; intros st; simpl; [done|].
  destruct (IH (formatted_step st tp)) as [IH1 IH2].
  rewrite formatted_step_leaf in *.
  destruct (is_leaf_block tp && negb _); [|done]. simpl in *. split.
  - intros b Hb. apply IH1, elem_of_app. by left.
  - intros x Hx. apply IH2, elem_of_union. by left.
Qed.

(** Every text that was seen stands in the list of blocks, up to case. *)
Lemma formatted_fold_seen (l : list (node * list node)) :
  ∀ st,
    (∀ x, x ∈ st.2 → ∃ t, block_line t ∈ st.1 ∧ Py.lower t = x) →
    ∀ x, x ∈ (foldl formatted_step st l).2 →
         ∃ t, block_line t ∈ (foldl formatted_step st l).1 ∧ Py.lower t = x.
Proof.
  intros st Hst.
  apply (foldl_invariant formatted_step
           (fun st => ∀ x, x ∈ st.2 → ∃ t, block_line t ∈ st.1 ∧ Py.lower t = x));
    [|exact Hst].
  clear st Hst. intros st tp _ Hinv x. rewrite formatted_step_leaf.
  destruct (is_leaf_block tp && negb _); [|by apply Hinv]. simpl.
  intros Hx. apply elem_of_union in Hx as [Hx|Hx].
  - destruct (Hinv x Hx) as (t & Ht & <-). exists t. split; [|done].
    apply elem_of_app. by left.
  - apply elem_of_singleton in Hx as ->. exists (block_text tp.1). split; [|done].
    apply elem_of_app. right. by left.
Qed.

(** A tag that passes the test has its text seen when the loop ends. *)
Lemma formatted_fold_covers (l : list (node * list node)) :
  ∀ st tp, tp ∈ l → is_leaf_block tp = true →
           Py.lower (block_text tp.1) ∈ (foldl formatted_step st l).2.
Proof.
  induction l as [|a l IH]; intros st tp Hin Hleaf; [by apply elem_of_nil in Hin|].
  simpl. apply elem_of_cons in Hin as [->|Hin]; [|by apply IH].
  apply formatted_fold_grows. rewrite formatted_step_leaf, Hleaf. simpl.
  case_bool_decide as Hseen; simpl; [done|].
  apply elem_of_union. right. by apply elem_of_singleton.
Qed.

(** X11: nothing is lost but duplicates.  The text of every tag that passes
    the test of the loop stands among the emitted blocks, in the case of its
    first occurrence: some emitted block has a text equal to it up to
    case. *)
Theorem leaf_block_text_is_emitted (sp : soup) (tag : node) (parents : list node) :
  (tag, parents) ∈ Bs4.walk_soup sp →
  is_leaf_block (tag, parents) = true →
  ∃ t, block_line t ∈ formatted_article sp
       ∧ Py.lower t = Py.lower (Py.strip (Bs4.get_text tag)).
Proof.
  intros Hin Hleaf. unfold formatted_article.
  apply formatted_fold_seen.
  - intros x Hx. by apply elem_of_empty in Hx.
  - by apply (formatted_fold_covers _ _ (tag, parents)).
Qed.

Lemma leaf_block_text_is_emitted_witness :
  ∃ t, block_line t ∈ formatted_article shouted_twice
       ∧ Py.lower t = Py.lower (Py.strip " HELLO ").
Proof.
  apply (leaf_block_text_is_emitted shouted_twice
           (Tag "p" [] [] [NavigableString " HELLO "]) []).
  - vm_compute. right. left.
  - vm_compute; reflexivity.
Defined.

(** ** The file sink: what it leaves alone *)

Example one_place_two_spellings :
  Os.key "./notes//drafts/../out.txt" = Os.key "notes/out.txt"
  ∧ Os.key "notes/out.txt" ≠ Os.key "notes/other.txt".
Proof. split; [reflexivity|discriminate]. Qed.



(** X13: when the write block raises in its directory creation, or in
    opening the target after the directories were created, [file_sink]
    raises the same exception, and by then no entry has been removed or
    changed, a new entry is a directory, and every file holds what it held,
    the target included. *)
Theorem failed_file_sink_keeps_files (p text : string) (append : bool)
    (st st' : fs) (e : exn) :
  (prepare_dirs p st = (Raise e, st')
   ∨ ∃ st0 : fs, prepare_dirs p st = (Return (), st0)
                 ∧ Os.open_ p append st0 = (Raise e, st')) →
  file_sink p text append st = (Raise e, st')
  ∧ (∀ k entry, st !! k = Some entry → st' !! k = Some entry)
  ∧ (∀ k, st !! k = None → st' !! k = None ∨ st' !! k = Some Dir)
  ∧ (∀ q, Os.read q st' = Os.read q st).
Proof.
  intros Hraise.
  pose proof (proj2 (file_sink_raises p text append st st' e) Hraise) as Hrun.
  split; [exact Hrun|].
  destruct (file_sink_effect _ _ _ _ _ _ Hrun) as [_ Hadd].
  specialize (Hadd e eq_refl). split; [|split].
  - intros k entry Hentry. destruct (Hadd k) as [->|(Hnone & _)]; congruence.
  - intros k Hnone. destruct (Hadd k) as [->|(_ & ->)]; [by left|by right].
  - intros q. unfold Os.read. destruct (Hadd (Os.key q)) as [->|(-> & ->)]; done.
Qed.

Lemma failed_file_sink_keeps_files_witness :
  let st : fs := {["notes.txt" := File "kept"]} in
  let st' : fs := {["notes.txt" := File "kept"; "out" := Dir]} in
  let e := Exception "IsADirectoryError" "out/" in
  file_sink "out/" "hello" false st = (Raise e, st')
  ∧ (∀ k entry, st !! k = Some entry → st' !! k = Some entry)
  ∧ (∀ k, st !! k = None → st' !! k = None ∨ st' !! k = Some Dir)
  ∧ (∀ q, Os.read q st' = Os.read q st).
Proof.
  intros st st' e.
  apply (failed_file_sink_keeps_files "out/" "hello" false st st' e).
  right. exists st'. split; vm_compute; reflexivity.
Defined.

(** ** Trimmed answers and terminated lines *)

Lemma endswith_char_cons (c a b : ascii) (s : string) :
  Py.endswith_char c (String a (String b s)) = Py.endswith_char c (String b s).
Proof. reflexivity. Qed.

Lemma endswith_char_truthy (c : ascii) (s : string) :
  Py.endswith_char c s = true → Py.truthy s = true.
Proof. by destruct s. Qed.

Lemma endswith_char_app (c : ascii) (a b : string) :
  Py.truthy b = true → Py.endswith_char c (a +:+ b) = Py.endswith_char c b.
Proof.
  intros Hb. induction a as [|x a IH]; [done|].
  rewrite append_cons. destruct (a +:+ b) as [|y s] eqn:Hab.
  - destruct a; [change (b = "") in Hab; by subst b|by rewrite append_cons in Hab].
  - by rewrite endswith_char_cons.
Qed.

(** What [rstrip] leaves does not end in whitespace. *)
Lemma rstrip_end (c : ascii) (s : string) :
  Py.endswith_char c (Py.rstrip s) = true → Py.is_space c = false.
Proof.
  induction s as [|a s IH]; [done|]. simpl.
  destruct (Py.rstrip s) as [|b r] eqn:Hr.
  - simpl. rewrite andb_true_r. destruct (Py.is_space a) eqn:Ha; [done|].
    simpl. case_decide; [by subst c|done].
  - simpl Py.truthy. rewrite andb_false_r. by rewrite endswith_char_cons.
Qed.

Lemma strip_not_terminated (s : string) :
  Py.endswith_char (ascii_of_nat 10) (Py.strip s) = false.
Proof.
  destruct (Py.endswith_char (ascii_of_nat 10) (Py.strip s)) eqn:H; [|done].
  by apply rstrip_end in H.
Qed.

(** X14: after any append that the write block completes, the file ends in
    a newline, whatever it held before and whatever was written, the empty
    text included. *)
Theorem append_leaves_terminated_file (st st' : fs) (p text : string) :
  file_sink p text true st = (Return (), st') →
  ∃ data, Os.read p st' = Some data
          ∧ Py.endswith_char (ascii_of_nat 10) data = true.
Proof.
  intros Hrun. eexists. split; [by apply file_sink_result|].
  unfold terminator. simpl.
  destruct (Py.endswith_char (ascii_of_nat 10) text) eqn:Hend; simpl.
  - rewrite append_empty_r. rewrite endswith_char_app; [done|].
    by eapply endswith_char_truthy.
  - rewrite <- append_assoc. by rewrite endswith_char_app.
Qed.

Lemma append_leaves_terminated_file_witness :
  ∃ data, Os.read "log/agent_output.txt" (file_sink "log/agent_output.txt" "" true ∅).2
          = Some data
          ∧ Py.endswith_char (ascii_of_nat 10) data = true.
Proof.
  apply (append_leaves_terminated_file ∅ _ "log/agent_output.txt" "").
  vm_compute; reflexivity.
Defined.

(** ** save_file: the successful path and the prompt *)

Section SaveFileSuccess.

Variable urljoin : string -> string -> result string.
Variable sync_webscraping : playwright_manager -> result (option snapshot).
Variable expanduser : string -> string.
Variable getenv : string -> option string.
Variable str_dict : snapshot -> string.
Variable completion : request -> result string.

Variables (content file_path : option string) (append : bool).
Variables (pm : playwright_manager) (model_name : option string).

Let target_path : string := expanduser (path_or_default file_path).

Let backend_request (context_text : string) : request :=
  Backend.build_request getenv target_path
    (Py.take Backend.max_context_chars context_text) model_name.

Let sync_request (context_text : string) : request :=
  Sync.build_request getenv target_path (Py.take (6 * 1000) context_text) model_name.

(** X15: a save that goes through.  When the backend answers (and, in the
    backend version, the trimmed answer does not begin with [formatting
    failed]) and the write block returns, [save_file] returns the success
    dict and the file holds the trimmed answer: alone when overwriting; after
    the former contents and followed by one newline when appending. *)
Theorem save_file_writes_trimmed_answer (st st' : fs) :
  (∀ context_text text,
     Backend.build_context urljoin str_dict content pm = Return context_text →
     completion (backend_request context_text) = Return text →
     Py.startswith "formatting failed" (Py.lower (Py.strip text)) = false →
     file_sink target_path (Py.strip text) append st = (Return (), st') →
     Backend.save_file urljoin expanduser getenv str_dict completion
       content file_path append pm model_name st
     = (Return (success_result target_path), st')
     ∧ Os.read target_path st'
       = Some ((if append then contents st target_path else "")
               +:+ Py.strip text +:+ (if append then nl else "")))
  ∧ (∀ context_text text,
       Sync.build_context sync_webscraping str_dict content pm = Return context_text →
       completion (sync_request context_text) = Return text →
       file_sink target_path (Py.strip text) append st = (Return (), st') →
       Sync.save_file sync_webscraping expanduser getenv str_dict completion
         content file_path append pm model_name st
       = (Return (success_result target_path), st')
       ∧ Os.read target_path st'
         = Some ((if append then contents st target_path else "")
                 +:+ Py.strip text +:+ (if append then nl else ""))).
Proof.
  assert (Hterm : ∀ text, terminator append (Py.strip text) = if append then nl else "").
  { intros text. unfold terminator. rewrite strip_not_terminated. by destruct append. }
  split; intros context_text text Hctx Hresp.
  - intros Hsoft Hrun. pose proof (file_sink_result _ _ _ _ _ Hrun) as Hread.
    rewrite Hterm in Hread. split; [|done].
    unfold Backend.save_file. rewrite Hctx.
    fold target_path. fold (backend_request context_text). rewrite Hresp, Hsoft.
    unfold io_bind. by rewrite Hrun.
  - intros Hrun. pose proof (file_sink_result _ _ _ _ _ Hrun) as Hread.
    rewrite Hterm in Hread. split; [|done].
    unfold Sync.save_file. rewrite Hctx.
    fold target_path. fold (sync_request context_text). rewrite Hresp.
    unfold io_bind. by rewrite Hrun.
Qed.

(** X16: the prompt is bounded.  [save_file] only ever calls the backend
    with [max_tokens] 1200 and a user message of at most 8000 characters that
    is not empty (800, 6000 and possibly empty in the sync version): two
    backends that agree on such requests cannot be told apart by it. *)
Theorem save_file_prompt_bounded (completion' : request -> result string) (st : fs) :
  ((∀ req, String.length (user_content req) ≤ Backend.max_context_chars →
           Py.truthy (user_content req) = true →
           max_tokens req = 1200 →
           completion req = completion' req) →
   Backend.save_file urljoin expanduser getenv str_dict completion
     content file_path append pm model_name st
   = Backend.save_file urljoin expanduser getenv str_dict completion'
       content file_path append pm model_name st)
  ∧ ((∀ req, String.length (user_content req) ≤ 6 * 1000 →
             max_tokens req = 800 →
             completion req = completion' req) →
     Sync.save_file sync_webscraping expanduser getenv str_dict completion
       content file_path append pm model_name st
     = Sync.save_file sync_webscraping expanduser getenv str_dict completion'
         content file_path append pm model_name st).
Proof.
  split; intros Hagree.
  - unfold Backend.save_file.
    destruct (Backend.build_context urljoin str_dict content pm) as [ctx|e]; [|done].
    pose proof (length_take Backend.max_context_chars ctx) as Hlen.
    set (trimmed := Py.take Backend.max_context_chars ctx) in *.
    rewrite Hagree; [done| | |done].
    + unfold Backend.build_request. cbn [user_content].
      destruct (Py.truthy trimmed).
      * rewrite Hlen. apply Nat.le_min_l.
      * apply Nat.leb_le. vm_compute. reflexivity.
    + unfold Backend.build_request. cbn [user_content].
      by destruct (Py.truthy trimmed) eqn:Ht.
  - unfold Sync.save_file.
    destruct (Sync.build_context sync_webscraping str_dict content pm) as [ctx|e]; [|done].
    pose proof (length_take (6 * 1000) ctx) as Hlen.
    set (trimmed := Py.take (6 * 1000) ctx) in *.
    rewrite Hagree; [done| |done].
    unfold Sync.build_request. cbn [user_content]. rewrite Hlen. apply Nat.le_min_l.
Qed.

End SaveFileSuccess.

Lemma save_file_writes_trimmed_answer_witness :
  let st' := (file_sink "notes/out.txt" "A short summary." true ∅).2 in
  (Backend.save_file sample_urljoin sample_expanduser sample_getenv sample_str_dict
     answering_completion (Some "page text") (Some "notes/out.txt") true closed_browser None ∅
   = (Return (success_result "notes/out.txt"), st')
   ∧ Os.read "notes/out.txt" st' = Some ("" +:+ "A short summary." +:+ nl))
  ∧ (Sync.save_file sample_sync_webscraping sample_expanduser sample_getenv sample_str_dict
       answering_completion (Some "page text") (Some "notes/out.txt") true closed_browser None ∅
     = (Return (success_result "notes/out.txt"), st')
     ∧ Os.read "notes/out.txt" st' = Some ("" +:+ "A short summary." +:+ nl)).
Proof.
  intros st'.
  destruct (save_file_writes_trimmed_answer sample_urljoin sample_sync_webscraping
              sample_expanduser sample_getenv sample_str_dict answering_completion
              (Some "page text") (Some "notes/out.txt") true closed_browser None ∅ st')
    as [Hbackend Hsync].
  split.
  - apply (Hbackend "page text" "A short summary."); vm_compute; reflexivity.
  - apply (Hsync "page text" "A short summary."); vm_compute; reflexivity.
Defined.

Lemma save_file_prompt_bounded_witness :
  Backend.save_file sample_urljoin sample_expanduser sample_getenv sample_str_dict
    answering_completion (Some "page text") (Some "notes/out.txt") false closed_browser None ∅
  = Backend.save_file sample_urljoin sample_expanduser sample_getenv sample_str_dict
      picky_completion (Some "page text") (Some "notes/out.txt") false closed_browser None ∅
  ∧ Sync.save_file sample_sync_webscraping sample_expanduser sample_getenv sample_str_dict
      answering_completion (Some "page text") (Some "notes/out.txt") false closed_browser None ∅
    = Sync.save_file sample_sync_webscraping sample_expanduser sample_getenv sample_str_dict
        picky_completion (Some "page text") (Some "notes/out.txt") false closed_browser None ∅.
Proof.
  destruct (save_file_prompt_bounded sample_urljoin sample_sync_webscraping
              sample_expanduser sample_getenv sample_str_dict answering_completion
              (Some "page text") (Some "notes/out.txt") false closed_browser None
              picky_completion ∅) as [Hbackend Hsync].
  split.
  - apply Hbackend. intros req Hlen _ _. unfold picky_completion.
    apply Nat.leb_le in Hlen. rewrite Hlen. reflexivity.
  - apply Hsync. intros req Hlen _. unfold picky_completion.
    assert (Hle : String.length (user_content req) ≤ Backend.max_context_chars)
      by (unfold Backend.max_context_chars; lia).
    apply Nat.leb_le in Hle. rewrite Hle. reflexivity.
Defined.

Lemma backend_soft_error_not_written_witness :
  Backend.save_file sample_urljoin sample_expanduser sample_getenv sample_str_dict
    soft_failing_completion (Some "page text") (Some "notes.txt") true closed_browser None ∅
  = (Return (error_result "notes.txt" (Py.strip "Formatting failed: the page is empty")), ∅).
Proof.
  apply (backend_soft_error_not_written sample_urljoin sample_expanduser sample_getenv
           sample_str_dict soft_failing_completion (Some "page text") (Some "notes.txt")
           true closed_browser None ∅ "page text" "Formatting failed: the page is empty");
    reflexivity.
Defined.

(** ** The context that save_file builds from a scrape *)

Section ScrapeContext.

Variable urljoin : string -> string -> result string.
Variable str_dict : snapshot -> string.

(** X18: after three challenge pages [webscraping] returns [None], and the
    context that the backend version of [save_file] builds from it is the
    text [None], whatever markup the page serves afterwards: the fallback
    leaves it alone, and this text is what the model is asked to rewrite. *)
Theorem challenge_context_is_none (pm : playwright_manager) (pg : page) :
  get_page pm = Return pg →
  (∀ i, i < max_retries →
        wait_for_load_state (attempt_view pg i) = Return ()
        ∧ ∃ t, page_title (attempt_view pg i) = Return t
               ∧ Py.contains "cloudflare" (Py.lower t) = true) →
  Backend.build_context urljoin str_dict None pm = Return "None".
Proof.
  intros Hpg Hall.
  assert (Hi : ∀ i, i < max_retries →
                    attempt_body urljoin i (attempt_view pg i) = NextAttempt (Sleep 5)).
  { intros i Hlt. destruct (Hall i Hlt) as (Hw & t & Ht & Hc).
    by apply (attempt_body_challenge urljoin i _ () t). }
  unfold Backend.build_context, webscraping. rewrite Hpg. simpl.
  rewrite !Hi by (unfold max_retries; lia). reflexivity.
Qed.

(** X19: when the wait for network-idle times out, the context that the
    backend version of [save_file] builds is the single line [Title: timeout
    waiting for page], whatever markup the page serves afterwards: the
    fallback that reads the markup again leaves it alone. *)
Theorem timeout_context_is_title_line (pm : playwright_manager) (pg : page)
    (k : nat) (msg : string) :
  get_page pm = Return pg →
  k < max_retries →
  (∀ i, i < k →
        ∃ sleep, attempt_body urljoin i (attempt_view pg i) = NextAttempt sleep) →
  wait_for_load_state (attempt_view pg k) = Raise (PlaywrightTimeoutError msg) →
  Backend.build_context urljoin str_dict None pm
  = Return "Title: timeout waiting for page".
Proof.
  intros Hpg Hk Hbefore Htimeout. unfold Backend.build_context, webscraping. rewrite Hpg.
  rewrite (seq_split_at k max_retries Hk).
  destruct (webscraping_loop_timeout urljoin pg (seq 0 k)
              (seq (S k) (max_retries - S k)) k msg) as (trace & -> & _).
  - intros i Hi. apply Hbefore. apply elem_of_seq in Hi. lia.
  - exact Htimeout.
  - reflexivity.
Qed.

(** X20: the fallback never raises and changes the context only when it is
    empty or holds the sentinel; what it puts in its place is the stripped
    text of a tag of the markup served then, cut at 2000 characters, and is
    between 51 and 2000 characters long. *)
Theorem fallback_context_bounds (pm : playwright_manager) (context_text : string) :
  Backend.fallback_context pm context_text = context_text
  ∨ ((Py.truthy context_text = false ∨ Py.contains sentinel context_text = true)
     ∧ 50 < String.length (Backend.fallback_context pm context_text) ≤ 2000
     ∧ ∃ pg sp t,
         get_page pm = Return pg
         ∧ late_content pg = Return sp
         ∧ t ∈ Bs4.find_all_tags sp
         ∧ Backend.fallback_context pm context_text = Py.take 2000 (Bs4.get_text_strip t)).
Proof.
  unfold Backend.fallback_context, sentinel.
  destruct (negb (Py.truthy context_text) || Py.contains _ context_text) eqn:Hcond;
    [|by left].
  destruct (get_page pm) as [pg|e] eqn:Hpg; [|by left]. cbn [bind].
  destruct (late_content pg) as [sp|e] eqn:Hsp; [|by left]. cbn [bind].
  destruct (Backend.additional_text Backend.selectors_to_try sp) as [text|] eqn:Hadd;
    [|by left].
  right. split.
  { apply orb_prop in Hcond as [H|H]; [left; by apply negb_true_iff|by right]. }
  assert (Hfirst : ∀ elements, (∀ t, t ∈ elements → t ∈ Bs4.find_all_tags sp) →
            Backend.first_long elements = Some text →
            ∃ t, t ∈ Bs4.find_all_tags sp
                 ∧ 50 < String.length (Bs4.get_text_strip t)
                 ∧ text = Py.take 2000 (Bs4.get_text_strip t)).
  { induction elements as [|t elements IH]; intros Hsub; simpl; [done|].
    destruct (longer_than 50 (Bs4.get_text_strip t)) eqn:Hlong.
    - intros [= <-]. exists t. split; [apply Hsub; by left|].
      split; [by apply longer_than_length|done].
    - apply IH. intros t' Ht'. apply Hsub. by right. }
  assert (Hsel : ∀ sel t, t ∈ Backend.select sel sp → t ∈ Bs4.find_all_tags sp).
  { intros [nm|k v|c|sub] t Ht; simpl in Ht;
      [by eapply find_all_elem|by apply list_elem_of_filter in Ht as [_ ?]..]. }
  assert (Hsource : ∃ t, t ∈ Bs4.find_all_tags sp
                         ∧ 50 < String.length (Bs4.get_text_strip t)
                         ∧ text = Py.take 2000 (Bs4.get_text_strip t)).
  { revert Hadd. generalize Backend.selectors_to_try.
    induction l as [|sel sels IH]; simpl; [done|].
    destruct (Backend.first_long (Backend.select sel sp)) as [text'|] eqn:Hf; [|exact IH].
    intros [= ->]. eapply Hfirst; [|exact Hf]. apply Hsel. }
  destruct Hsource as (t & Hin & Hlen & ->). split.
  - rewrite length_take. lia.
  - by exists pg, sp, t.
Qed.

(** X21: a context built from a scrape is never empty, as long as [str] of
    a dict is not: neither version of [_format_scrape_result] returns the
    empty text. *)
Theorem format_scrape_result_not_empty (scrape_result : option snapshot) :
  (∀ d, Py.truthy (str_dict d) = true) →
  Py.truthy (Backend._format_scrape_result str_dict scrape_result) = true
  ∧ Py.truthy (Sync._format_scrape_result str_dict scrape_result) = true.
Proof.
  intros Hdict. destruct scrape_result as [d|]; [|done].
  unfold Backend._format_scrape_result, Sync._format_scrape_result. split.
  - destruct (Py.truthy (Py.join nl _)) eqn:H; [exact H|apply Hdict].
  - destruct (Py.truthy (Py.strip (Py.join nl _))) eqn:H; [exact H|apply Hdict].
Qed.

End ScrapeContext.

Lemma challenge_context_is_none_witness :
  Backend.build_context sample_urljoin sample_str_dict None
    {| get_page := Return challenge_page |} = Return "None".
Proof.
  apply (challenge_context_is_none sample_urljoin sample_str_dict
           {| get_page := Return challenge_page |} challenge_page).
  - reflexivity.
  - intros i Hi. split; [reflexivity|].
    exists "Just a moment... | Cloudflare". split; reflexivity.
Defined.

Lemma timeout_context_is_title_line_witness :
  Backend.build_context sample_urljoin sample_str_dict None
    {| get_page := Return challenge_then_stalled_page |}
  = Return "Title: timeout waiting for page".
Proof.
  apply (timeout_context_is_title_line sample_urljoin sample_str_dict
           {| get_page := Return challenge_then_stalled_page |}
           challenge_then_stalled_page 1 "Timeout 10000ms exceeded.").
  - reflexivity.
  - unfold max_retries. lia.
  - intros i Hi. assert (i = 0) as -> by lia. exists (Sleep 5). reflexivity.
  - reflexivity.
Defined.

Lemma format_scrape_result_not_empty_witness :
  Py.truthy (Backend._format_scrape_result sample_str_dict
               (Some (timeout_snapshot "about:blank"))) = true
  ∧ Py.truthy (Sync._format_scrape_result sample_str_dict
                 (Some (timeout_snapshot "about:blank"))) = true.
Proof.
  apply (format_scrape_result_not_empty sample_str_dict
           (Some (timeout_snapshot "about:blank"))).
  intros d. reflexivity.
Defined.

Example fallback_context_recovers :
  Backend.fallback_context {| get_page := Return late_page |} "" = long_text
  ∧ Backend.fallback_context closed_browser "" = "".
Proof. split; vm_compute; reflexivity. Qed.

(** ** Paragraphs, headings and links *)

Lemma find_all_app (names : list string) (sp1 sp2 : soup) :
  Bs4.find_all names (sp1 ++ sp2) = Bs4.find_all names sp1 ++ Bs4.find_all names sp2.
Proof.
  unfold Bs4.find_all, Bs4.find_all_tags, Bs4.walk_soup.
  by rewrite flat_map_app, fmap_app, filter_app.
Qed.

(** The tags that a walk visits do not depend on where the walk started. *)
Lemma walk_tags (n : node) : ∀ ps ps', (Bs4.walk ps n).*1 = (Bs4.walk ps' n).*1.
Proof.
  induction n as [s|nm attrs cls cs IH] using node_induction; intros ps ps'; [done|].
  rewrite !walk_tag, !fmap_cons. f_equal. cbn [fst].
  generalize (Tag nm attrs cls cs :: ps) (Tag nm attrs cls cs :: ps'). intros qs qs'.
  induction IH as [|c cs' Hc _ IHcs]; [done|]. cbn [flat_map].
  by rewrite !fmap_app, (Hc qs qs'), IHcs.
Qed.

Lemma find_all_tag (names : list string) nm attrs cls cs :
  Bs4.find_all names [Tag nm attrs cls cs]
  = (if str_in nm names then [Tag nm attrs cls cs] else []) ++ Bs4.find_all names cs.
Proof.
  unfold Bs4.find_all, Bs4.find_all_tags, Bs4.walk_soup. cbn [flat_map].
  rewrite app_nil_r, walk_tag, fmap_cons. cbn [fst].
  assert ((flat_map (Bs4.walk [Tag nm attrs cls cs]) cs).*1 = (flat_map (Bs4.walk []) cs).*1)
    as ->.
  { generalize [Tag nm attrs cls cs]. intros qs.
    induction cs as [|c cs' IH]; [done|]. cbn [flat_map].
    by rewrite !fmap_app, (walk_tags c qs []), IH. }
  cbn [Bs4.name]. destruct (str_in nm names) eqn:Hnm.
  - by rewrite filter_cons_True.
  - rewrite filter_cons_False; [done|]. cbn [Bs4.name]. by rewrite Hnm.
Qed.

(** X22: paragraphs and headings are listed in document order, a tag before
    what it contains, each with all the text below it.  The equations
    determine both lists on every tree: nothing for no markup and for a text
    node; for a tag, its own text when it is a paragraph (a heading), then
    what its children give; for markup put side by side, one list after the
    other. *)
Theorem paragraphs_and_headings_in_document_order :
  (get_paragraphs [] = []
   ∧ (∀ s, get_paragraphs [NavigableString s] = [])
   ∧ (∀ nm attrs cls cs,
        get_paragraphs [Tag nm attrs cls cs]
        = (if decide (nm = "p") then [Bs4.get_text (Tag nm attrs cls cs)] else [])
          ++ get_paragraphs cs)
   ∧ (∀ sp1 sp2, get_paragraphs (sp1 ++ sp2) = get_paragraphs sp1 ++ get_paragraphs sp2))
  ∧ (get_headings [] = []
     ∧ (∀ s, get_headings [NavigableString s] = [])
     ∧ (∀ nm attrs cls cs,
          get_headings [Tag nm attrs cls cs]
          = (if decide (nm ∈ ["h1"; "h2"; "h3"; "h4"; "h5"; "h6"])
             then [Bs4.get_text (Tag nm attrs cls cs)] else [])
            ++ get_headings cs)
     ∧ (∀ sp1 sp2, get_headings (sp1 ++ sp2) = get_headings sp1 ++ get_headings sp2)).
Proof.
  unfold get_paragraphs, get_headings. split.
  - split; [done|]. split; [done|]. split.
    + intros nm attrs cls cs. rewrite find_all_tag, fmap_app. f_equal.
      unfold str_in. case_decide as Hp.
      * subst nm. by rewrite bool_decide_eq_true_2 by by left.
      * rewrite bool_decide_eq_false_2; [done|]. by intros ->%list_elem_of_singleton.
    + intros sp1 sp2. by rewrite find_all_app, fmap_app.
  - split; [done|]. split; [done|]. split.
    + intros nm attrs cls cs. rewrite find_all_tag, fmap_app. f_equal.
      unfold str_in. case_decide as Hh.
      * by rewrite bool_decide_eq_true_2.
      * by rewrite bool_decide_eq_false_2.
    + intros sp1 sp2. by rewrite find_all_app, fmap_app.
Qed.

Example paragraphs_nested_ex :
  get_paragraphs
    [Tag "div" [] []
       [Tag "p" [] [] [NavigableString "one "; Tag "p" [] [] [NavigableString "two"]];
        Tag "h2" [] [] [NavigableString "title"]];
     Tag "p" [] [] [NavigableString "three"]]
  = ["one two"; "two"; "three"].
Proof. reflexivity. Qed.

Lemma get_internal_links_shape_witness :
  get_internal_links sample_urljoin sample_anchors "https://example.com/page"
  = Return ["https://example.com/about"; "https://example.com/contact"]
  ∧ ∃ base_url, base_url_of "https://example.com/page" = Return base_url ∧
      ((∃ href, Py.startswith "/" href = true
                ∧ sample_urljoin base_url href = Return "https://example.com/about")
       ∨ Py.startswith base_url "https://example.com/about" = true).
Proof.
  split; [vm_compute; reflexivity|].
  apply (get_internal_links_shape sample_urljoin sample_anchors "https://example.com/page"
           ["https://example.com/about"; "https://example.com/contact"]
           "https://example.com/about").
  - vm_compute; reflexivity.
  - left.
Defined.

(** ** The two versions of _format_scrape_result *)

Lemma backend_format_lines str_dict (d : snapshot) :
  Backend._format_scrape_result str_dict (Some d)
  = if Py.truthy (Py.join nl (backend_lines d)) then Py.join nl (backend_lines d)
    else str_dict d.
Proof.
  unfold Backend._format_scrape_result, backend_lines.
  destruct (Py.truthy (title d)), (Py.truthy (main_content d)),
    (Py.truthy (formatted_content d)), (paragraphs d); reflexivity.
Qed.

Lemma sync_format_parts str_dict (d : snapshot) :
  Sync._format_scrape_result str_dict (Some d)
  = if Py.truthy (Py.strip (Py.join nl (sync_parts d)))
    then Py.strip (Py.join nl (sync_parts d))
    else str_dict d.
Proof.
  unfold Sync._format_scrape_result, sync_parts.
  destruct (Py.truthy (title d)), (Py.truthy (main_content d)),
    (Py.truthy (formatted_content d)), (paragraphs d); reflexivity.
Qed.

Lemma format_lists_related (d : snapshot) :
  (Py.truthy (title d) = false ∧ Py.truthy (main_content d) = false
   ∧ Py.truthy (formatted_content d) = false ∧ paragraphs d = []
   ∧ backend_lines d = [] ∧ sync_parts d = [])
  ∨ ((Py.join nl (sync_parts d) = Py.join nl (backend_lines d)
      ∨ Py.join nl (sync_parts d) = Py.join nl (backend_lines d) +:+ nl)
     ∧ Py.truthy (Py.strip (Py.join nl (backend_lines d))) = true).
Proof.
  unfold backend_lines, sync_parts.
  destruct (paragraphs d) as [|p ps].
  - destruct (Py.truthy (title d)), (Py.truthy (main_content d)),
      (Py.truthy (formatted_content d)); simpl;
      first [ by left | right; split; [left; by rewrite ?append_assoc | reflexivity] ].
  - destruct (filter (fun p0 : string => Py.truthy p0) (Py.strip <$> p :: ps)) as [|x xs].
    + destruct (Py.truthy (title d)), (Py.truthy (main_content d)),
        (Py.truthy (formatted_content d)); simpl;
        (right; split; [right; by rewrite ?append_assoc | reflexivity]).
    + destruct (Py.truthy (title d)), (Py.truthy (main_content d)),
        (Py.truthy (formatted_content d)); simpl;
        (right; split; [left; by rewrite ?append_assoc | reflexivity]).
Qed.

Lemma rstrip_app_space (s : string) (c : ascii) :
  Py.is_space c = true → Py.rstrip (s +:+ String c "") = Py.rstrip s.
Proof.
  intros Hc. induction s as [|a s IH].
  - change (Py.rstrip (String c "") = ""). simpl. by rewrite Hc.
  - rewrite append_cons. simpl. by rewrite IH.
Qed.

Lemma lstrip_app_space (s : string) (c : ascii) :
  Py.is_space c = true →
  Py.lstrip (s +:+ String c "") = Py.lstrip s +:+ String c ""
  ∨ (Py.lstrip s = "" ∧ Py.lstrip (s +:+ String c "") = "").
Proof.
  intros Hc. induction s as [|a s IH].
  - right. split; [done|]. change (Py.lstrip (String c "") = ""). simpl. by rewrite Hc.
  - rewrite append_cons. simpl. destruct (Py.is_space a); [exact IH|].
    left. by rewrite append_cons.
Qed.

Lemma strip_app_newline (s : string) : Py.strip (s +:+ nl) = Py.strip s.
Proof.
  unfold Py.strip, nl.
  destruct (lstrip_app_space s (ascii_of_nat 10) eq_refl) as [->|[-> ->]]; [|done].
  by apply rstrip_app_space.
Qed.

(** X23: the two versions of [_format_scrape_result] agree up to trimming.
    The sync version returns the text of the backend version with leading
    and trailing whitespace removed; except for a snapshot with no title, no
    main content, no formatted content and no paragraphs, for which both
    return [str] of the dict. *)
Theorem sync_format_is_trimmed_backend_format str_dict (scrape_result : option snapshot) :
  Sync._format_scrape_result str_dict scrape_result
  = Py.strip (Backend._format_scrape_result str_dict scrape_result)
  ∨ ∃ d, scrape_result = Some d
      ∧ Py.truthy (title d) = false
      ∧ Py.truthy (main_content d) = false
      ∧ Py.truthy (formatted_content d) = false
      ∧ paragraphs d = []
      ∧ Sync._format_scrape_result str_dict scrape_result = str_dict d
      ∧ Backend._format_scrape_result str_dict scrape_result = str_dict d.
Proof.
  destruct scrape_result as [d|]; [|by left].
  rewrite backend_format_lines, sync_format_parts.
  destruct (format_lists_related d)
    as [(Ht & Hm & Hf & Hp & -> & ->)|[Hjoin Htruthy]].
  - right. by exists d.
  - left.
    assert (Hstrip : Py.strip (Py.join nl (sync_parts d))
                     = Py.strip (Py.join nl (backend_lines d))).
    { destruct Hjoin as [->| ->]; [done|apply strip_app_newline]. }
    rewrite Hstrip, Htruthy.
    by destruct (Py.join nl (backend_lines d)).
Qed.

Example sync_format_trims :
  Backend._format_scrape_result sample_str_dict (Some sample_snapshot)
  = "Title: Example" +:+ nl +:+ nl +:+ "Main Content:" +:+ nl +:+ "The main text."
    +:+ nl +:+ nl +:+ "Paragraphs:"
  ∧ Sync._format_scrape_result sample_str_dict (Some sample_snapshot)
    = Backend._format_scrape_result sample_str_dict (Some sample_snapshot).
Proof. split; vm_compute; reflexivity. Qed.

(** ** Parent directories *)

Lemma split_nonempty (c : ascii) (s : string) : ∃ w ws, Py.split c s = w :: ws.
Proof.
  induction s as [|a s IH]; simpl; [by eexists _, _|].
  case_decide; [by eexists _, _|]. destruct IH as (w & ws & ->). by eexists _, _.
Qed.

Lemma split_app (c : ascii) (d rest : string) :
  Py.split c (d +:+ String c rest) = Py.split c d ++ Py.split c rest.
Proof.
  induction d as [|a d IH].
  - change ("" +:+ String c rest) with (String c rest). simpl. by rewrite decide_True.
  - rewrite append_cons. simpl. rewrite IH. case_decide; [done|].
    by destruct (split_nonempty c d) as (w & ws & ->).
Qed.

Lemma components_app (d rest : string) :
  Os.components (d +:+ "/" +:+ rest) = Os.components d ++ Os.components rest.
Proof.
  change ("/" +:+ rest) with (String "/" rest).
  unfold Os.components. by rewrite split_app, filter_app.
Qed.

Lemma rfind_None_split (c : ascii) (p : string) :
  Py.rfind c p = None → Py.split c p = [p].
Proof.
  induction p as [|a p IH]; [done|]. simpl.
  destruct (Py.rfind c p); [done|]. case_decide; [done|]. by rewrite IH.
Qed.

Lemma rfind_Some_split (c : ascii) (p : string) :
  ∀ i, Py.rfind c p = Some i → ∃ w w' ws, Py.split c p = w :: w' :: ws.
Proof.
  induction p as [|a p IH]; [done|]. intros i. simpl.
  destruct (Py.rfind c p) as [j|] eqn:Hp.
  - intros _. destruct (IH j eq_refl) as (w & w' & ws & ->).
    case_decide; by eexists _, _, _.
  - case_decide; [|done]. intros _. rewrite (rfind_None_split _ _ Hp). by eexists _, _, _.
Qed.

(** The text up to the last slash has the pieces of the whole but for the
    last, and an empty piece. *)
Lemma split_take_rfind (c : ascii) (p : string) :
  ∀ i, Py.rfind c p = Some i →
       Py.split c (Py.take (S i) p) = removelast (Py.split c p) ++ [""].
Proof.
  induction p as [|a p IH]; [done|]. intros i. simpl Py.rfind.
  destruct (Py.rfind c p) as [j|] eqn:Hp.
  - intros [= <-]. change (Py.take (S (S j)) (String a p)) with (String a (Py.take (S j) p)).
    cbn [Py.split]. rewrite (IH j eq_refl).
    destruct (rfind_Some_split _ _ _ Hp) as (w & w' & ws & ->).
    case_decide; reflexivity.
  - case_decide as Hac; [|done]. intros [= <-].
    change (Py.take 1 (String a p)) with (String a ""). cbn [Py.split].
    rewrite (rfind_None_split _ _ Hp). by rewrite !decide_True.
Qed.

(** Trailing slashes add no name. *)
Lemma split_rstrip_sep (s : string) :
  hd "" (Py.split "/" (Os.rstrip_sep s)) = hd "" (Py.split "/" s)
  ∧ filter (fun c => Py.truthy c = true) (tl (Py.split "/" (Os.rstrip_sep s)))
    = filter (fun c => Py.truthy c = true) (tl (Py.split "/" s)).
Proof.
  induction s as [|a s [IHhd IHtl]]; [done|]. cbn [Os.rstrip_sep Py.split].
  destruct (split_nonempty "/" s) as (w & ws & Hs).
  destruct (split_nonempty "/" (Os.rstrip_sep s)) as (w' & ws' & Hr).
  rewrite Hs, Hr in *. simpl in IHhd, IHtl. subst w'.
  case_bool_decide as Ha.
  - subst a. rewrite decide_True by done. cbn [andb hd tl].
    destruct (Py.truthy (Os.rstrip_sep s)) eqn:Ht; cbn [negb].
    + cbn [Py.split]. rewrite decide_True, Hr by done. cbn [hd tl]. split; [done|].
      destruct (decide (Py.truthy w = true)).
      * rewrite !filter_cons_True by done. by rewrite IHtl.
      * rewrite !filter_cons_False by done. exact IHtl.
    + destruct (Os.rstrip_sep s); [|done]. injection Hr as <- <-.
      cbn [Py.split hd tl]. split; [done|].
      rewrite filter_cons_False by (intros [=]). by rewrite <- IHtl.
  - cbn [andb]. cbn [Py.split]. rewrite !decide_False by done. by rewrite Hr.
Qed.

Lemma components_rstrip_sep (s : string) :
  Os.components (Os.rstrip_sep s) = Os.components s.
Proof.
  unfold Os.components. destruct (split_rstrip_sep s) as [Hhd Htl].
  destruct (split_nonempty "/" s) as (w & ws & Hs).
  destruct (split_nonempty "/" (Os.rstrip_sep s)) as (w' & ws' & Hr).
  rewrite Hs, Hr in *. simpl in Hhd, Htl. subst w'.
  destruct (decide (Py.truthy w = true)).
  - rewrite !filter_cons_True by done. by rewrite Htl.
  - by rewrite !filter_cons_False by done.
Qed.

(** The names of [os.path.dirname(p)] are those of [p] before its last
    piece. *)
Lemma dirname_components (p : string) :
  Os.components (Os.dirname p)
  = filter (fun c => Py.truthy c = true) (removelast (Py.split "/" p)).
Proof.
  unfold Os.dirname. destruct (Py.rfind "/" p) as [i|] eqn:Hp.
  - assert (Hhead : Os.components (Py.take (S i) p)
                    = filter (fun c => Py.truthy c = true) (removelast (Py.split "/" p))).
    { unfold Os.components. rewrite (split_take_rfind _ _ _ Hp), filter_app.
      rewrite filter_cons_False by done. by rewrite filter_nil, app_nil_r. }
    destruct (Py.truthy (Os.rstrip_sep (Py.take (S i) p))); [|done].
    by rewrite components_rstrip_sep.
  - by rewrite (rfind_None_split _ _ Hp).
Qed.


Lemma isabs_rstrip_sep (s : string) :
  Py.truthy (Os.rstrip_sep s) = true → Os.isabs (Os.rstrip_sep s) = Os.isabs s.
Proof.
  destruct s as [|a s]; [done|]. cbn [Os.rstrip_sep].
  destruct (bool_decide (a = "/"%char) && negb (Py.truthy (Os.rstrip_sep s))); done.
Qed.

Lemma isabs_take (n : nat) (s : string) : Os.isabs (Py.take (S n) s) = Os.isabs s.
Proof. by destruct s. Qed.

Lemma isabs_dirname (p : string) :
  is_Some (Py.rfind "/" p) →
  Py.truthy (Os.dirname p) = true ∧ Os.isabs (Os.dirname p) = Os.isabs p.
Proof.
  intros [i Hp]. unfold Os.dirname. rewrite Hp.
  destruct (Py.truthy (Os.rstrip_sep (Py.take (S i) p))) eqn:Hr.
  - split; [done|]. by rewrite isabs_rstrip_sep, isabs_take.
  - split; [|apply isabs_take]. destruct p; [done|done].
Qed.





Lemma only_adds_dirs_kept (st st' : fs) :
  only_adds_dirs st st' → ∀ k, st !! k = Some Dir → st' !! k = Some Dir.
Proof. intros Hadd k Hk. destruct (Hadd k) as [->|[? _]]; congruence. Qed.

(** The directories that [os.makedirs] has walked are there when it
    returns. *)
Lemma mkdirs_found name path abs (comps : list string) :
  ∀ n cur (st st' : fs),
    Os.mkdirs name abs n cur comps st = (Return (), st') →
    Os.find_dirs path abs cur comps st' = Return ().
Proof.
  induction comps as [|c comps IH]; intros n cur st st'; [done|]. cbn [Os.mkdirs Os.find_dirs].
  destruct (Os.has_nul c); [done|].
  destruct (Os.lookup_place st abs (Os.step abs cur c)) as [[data|]|] eqn:Hlook; [done| |].
  - intros Hrun. pose proof (mkdirs_only_adds _ _ _ _ _ _ _ _ Hrun) as Hadd.
    assert (Os.lookup_place st' abs (Os.step abs cur c) = Some Dir) as ->;
      [|by eapply IH].
    unfold Os.lookup_place in *. destruct (forallb _ (Os.step abs cur c)); [done|].
    by eapply only_adds_dirs_kept.
  - intros Hrun. pose proof (mkdirs_only_adds _ _ _ _ _ _ _ _ Hrun) as Hadd.
    assert (Os.lookup_place st' abs (Os.step abs cur c) = Some Dir) as ->;
      [|by eapply IH].
    unfold Os.lookup_place in *. destruct (forallb _ (Os.step abs cur c)); [done|].
    eapply only_adds_dirs_kept; [exact Hadd|]. by rewrite lookup_insert_eq.
Qed.





Example parents_ex :
  let st' := (file_sink "reports//2024/./out.csv" "a,b" false ∅).2 in
  map (fun d => Os.isdir d st') ["reports"; "reports/"; "reports//2024"; "reports//2024/."]
  = [true; true; true; true]
  ∧ st' = {[ "reports" := Dir; "reports/2024" := Dir;
             "reports/2024/out.csv" := File "a,b" ]}.
Proof. split; vm_compute; reflexivity. Qed.

(** ** Paths that can be written *)

Lemma length_app (a b : string) : String.length (a +:+ b) = String.length a + String.length b.
Proof. induction a as [|x a IH]; [done|]. rewrite append_cons. simpl. by rewrite IH. Qed.

Lemma join_app (sep : string) (l1 l2 : list string) :
  l1 ≠ [] → l2 ≠ [] →
  Py.join sep (l1 ++ l2) = Py.join sep l1 +:+ sep +:+ Py.join sep l2.
Proof.
  intros H1 H2. induction l1 as [|a l1 IH]; [done|].
  destruct l1 as [|b l1].
  - destruct l2 as [|c l2]; [done|]. reflexivity.
  - change (Py.join sep ((a :: b :: l1) ++ l2))
      with (a +:+ sep +:+ Py.join sep ((b :: l1) ++ l2)).
    rewrite IH by done.
    change (Py.join sep (a :: b :: l1)) with (a +:+ sep +:+ Py.join sep (b :: l1)).
    by rewrite !append_assoc.
Qed.

(** A place below another has another key. *)
Lemma key_of_below abs (l1 l2 : list string) :
  l1 ≠ [] → l2 ≠ [] → Os.key_of abs (l1 ++ l2) ≠ Os.key_of abs l1.
Proof.
  intros H1 H2 Heq. apply (f_equal String.length) in Heq. unfold Os.key_of in Heq.
  rewrite !length_app, join_app, !length_app in Heq by done.
  destruct abs; simpl in Heq; lia.
Qed.

Lemma step_plain abs (cur : list string) (c : string) :
  plain_name c = true → Os.step abs cur c = cur ++ [c].
Proof.
  unfold plain_name, str_in, Os.step. intros Hc%negb_true_iff%bool_decide_eq_false.
  rewrite !decide_False; [done| |]; intros ->; apply Hc; set_solver.
Qed.

Lemma walk_plain abs (comps : list string) :
  forallb plain_name comps = true →
  ∀ cur, foldl (Os.step abs) cur comps = cur ++ comps.
Proof.
  induction comps as [|c comps IH]; intros Hplain cur; [by rewrite app_nil_r|].
  cbn [forallb] in Hplain. apply andb_prop in Hplain as [Hc Hplain]. cbn [foldl].
  by rewrite step_plain, IH, <- app_assoc.
Qed.

Lemma lookup_place_plain (st : fs) abs (cur : list string) (c : string) :
  plain_name c = true →
  Os.lookup_place st abs (cur ++ [c]) = st !! Os.key_of abs (cur ++ [c]).
Proof.
  unfold plain_name, str_in, Os.lookup_place.
  intros Hc%negb_true_iff%bool_decide_eq_false.
  rewrite forallb_app. cbn [forallb].
  rewrite (bool_decide_eq_false_2 (c = "..")); [by rewrite andb_false_r|].
  intros ->. apply Hc. set_solver.
Qed.

Lemma no_file_on_insert_dir (st : fs) abs (d : string) (comps : list string) :
  ∀ cur, no_file_on st abs cur comps = true →
         no_file_on (<[d := Dir]> st) abs cur comps = true.
Proof.
  induction comps as [|c comps IH]; intros cur; [done|]. cbn [no_file_on].
  intros [Hc Hrest]%andb_prop. rewrite (IH _ Hrest), andb_true_r.
  destruct (decide (d = Os.key_of abs (cur ++ [c]))) as [->|Hne].
  - by rewrite lookup_insert_eq.
  - by rewrite lookup_insert_ne.
Qed.

(** [os.makedirs] returns when the names are plain, none has a NUL, and no
    regular file is in the way; what it adds lies at the places that the
    names lead through. *)
Lemma mkdirs_returns name abs (comps : list string) :
  ∀ n cur (st : fs),
    forallb plain_name comps = true →
    Forall (fun c => Os.has_nul c = false) comps →
    no_file_on st abs cur comps = true →
    ∃ st' : fs,
      Os.mkdirs name abs n cur comps st = (Return (), st')
      ∧ ∀ k, st' !! k = st !! k
             ∨ ∃ l1 c l2, comps = l1 ++ c :: l2 ∧ k = Os.key_of abs (cur ++ l1 ++ [c]).
Proof.
  induction comps as [|c comps IH]; intros n cur st Hplain Hnul Hclear.
  - exists st. split; [done|]. intros k. by left.
  - cbn [forallb] in Hplain. apply andb_prop in Hplain as [Hc Hplain].
    apply Forall_cons in Hnul as [Hcnul Hnul].
    cbn [no_file_on] in Hclear. apply andb_prop in Hclear as [Hhere Hclear].
    cbn [Os.mkdirs]. rewrite Hcnul, step_plain, lookup_place_plain by done.
    assert (Hlater : ∀ (st1 st' : fs) k,
              (st' !! k = st1 !! k
               ∨ ∃ l1 c' l2, comps = l1 ++ c' :: l2
                             ∧ k = Os.key_of abs ((cur ++ [c]) ++ l1 ++ [c'])) →
              st' !! k = st1 !! k
              ∨ ∃ l1 c' l2, c :: comps = l1 ++ c' :: l2
                            ∧ k = Os.key_of abs (cur ++ l1 ++ [c'])).
    { intros st1 st' k [Hk|(l1 & c' & l2 & -> & ->)]; [by left|]. right.
      exists (c :: l1), c', l2. split; [done|]. by rewrite <- !app_assoc. }
    destruct (st !! Os.key_of abs (cur ++ [c])) as [[data|]|] eqn:Hlook; [done| |].
    + destruct (IH (S n) (cur ++ [c]) st Hplain Hnul Hclear) as (st' & Hrun & Hkeys).
      exists st'. split; [done|]. intros k. apply Hlater, Hkeys.
    + destruct (IH (S n) (cur ++ [c]) (<[Os.key_of abs (cur ++ [c]) := Dir]> st)
                  Hplain Hnul (no_file_on_insert_dir _ _ _ _ _ Hclear))
        as (st' & Hrun & Hkeys).
      exists st'. split; [done|]. intros k.
      destruct (decide (k = Os.key_of abs (cur ++ [c]))) as [->|Hne].
      * right. by exists [], c, comps.
      * destruct (Hlater _ _ _ (Hkeys k)) as [Hk|Hk]; [|by right].
        left. by rewrite Hk, lookup_insert_ne.
Qed.

Lemma has_nul_split (p : string) :
  Os.has_nul p = false → Forall (fun c => Os.has_nul c = false) (Py.split "/" p).
Proof.
  unfold Os.has_nul. induction p as [|a p IH].
  { intros _. by apply (Forall_singleton _ ""). }
  cbn [Urllib.has_char Py.split]. intros [Ha Hp]%orb_false_elim. specialize (IH Hp).
  destruct (decide (a = "/"%char)); [by apply Forall_cons_2|].
  destruct (Py.split "/" p) as [|w ws].
  { apply (Forall_singleton _ (String a "")). cbn [Urllib.has_char]. by rewrite Ha. }
  apply Forall_cons in IH as [Hw Hws]. apply Forall_cons_2; [|done].
  cbn [Urllib.has_char]. by rewrite Ha, Hw.
Qed.

(** The pieces of a path that does not name a directory: those of its
    directory, then one name. *)
Lemma split_last_name (p : string) :
  Os.names_directory p = false →
  ∃ name, Py.split "/" p = removelast (Py.split "/" p) ++ [name]
          ∧ Py.truthy name = true
          ∧ Os.components p = Os.components (Os.dirname p) ++ [name].
Proof.
  unfold Os.names_directory. destruct (split_nonempty "/" p) as (w & ws & Hsplit).
  assert (Hne : Py.split "/" p ≠ []) by by rewrite Hsplit.
  destruct (exists_last Hne) as (init & name & Hlast). rewrite Hlast, last_snoc.
  unfold str_in. intros Hname%bool_decide_eq_false. exists name.
  rewrite removelast_last. split; [done|].
  assert (Htruthy : Py.truthy name = true).
  { destruct name; [|done]. exfalso. apply Hname. set_solver. }
  split; [done|]. rewrite dirname_components. unfold Os.components.
  rewrite Hlast, removelast_last, filter_app. by rewrite filter_cons_True.
Qed.

(** X26: a path that is [writable] is written.  The write block returns, and
    the file holds the text, after what it held when appending, with the
    terminator of append mode. *)
Theorem writable_path_is_written (st : fs) (p text : string) (append : bool) :
  writable st p = true →
  ∃ st' : fs,
    file_sink p text append st = (Return (), st')
    ∧ Os.read p st'
      = Some ((if append then contents st p else "") +:+ text +:+ terminator append text).
Proof.
  unfold writable. intros Hw.
  apply andb_prop in Hw as [Hw Htarget]. apply andb_prop in Hw as [Hw Hclear].
  apply andb_prop in Hw as [Hw Hplain]. apply andb_prop in Hw as [Hnul Hname].
  apply negb_true_iff in Hnul, Hname.
  destruct (split_last_name p Hname) as (name & Hsplit & Htruthy & Hcomps).
  rewrite Hcomps, removelast_last in Hclear.
  assert (Hplain' : forallb plain_name (Os.components (Os.dirname p)) = true).
  { rewrite Hcomps, forallb_app in Hplain. by apply andb_prop in Hplain as [? _]. }
  assert (Hnul' : Forall (fun c => Os.has_nul c = false) (Os.components (Os.dirname p))).
  { rewrite dirname_components. apply has_nul_split in Hnul. rewrite Hsplit in Hnul.
    apply Forall_app in Hnul as [Hnul _].
    apply Forall_forall. intros c [_ Hc]%list_elem_of_filter.
    by apply (proj1 (Forall_forall _ _) Hnul). }
  assert (Hkey : Os.key p = Os.key_of (Os.isabs p) (Os.components (Os.dirname p) ++ [name])).
  { unfold Os.key. by rewrite (walk_plain _ _ Hplain), Hcomps. }
  (* the directories *)
  assert (Hdirs : ∃ st0 : fs,
            prepare_dirs p st = (Return (), st0)
            ∧ st0 !! Os.key p ≠ Some Dir
            ∧ Os.find_dirs p (Os.isabs p) [] (Os.components (Os.dirname p)) st0
              = Return ()).
  { unfold prepare_dirs. destruct (Py.truthy (Os.dirname p)) eqn:Hdir.
    - assert (Habs : Os.isabs (Os.dirname p) = Os.isabs p).
      { apply isabs_dirname. unfold Os.dirname in Hdir. by destruct (Py.rfind "/" p). }
      unfold Os.makedirs. rewrite Habs.
      destruct (mkdirs_returns (Os.dirname p) (Os.isabs p) _ 0 [] st Hplain' Hnul' Hclear)
        as (st0 & Hrun & Hkeys).
      exists st0. split; [done|]. split; [|by eapply mkdirs_found].
      destruct (Hkeys (Os.key p)) as [->|(l1 & c & l2 & Hl & Hk)].
      + by destruct (st !! Os.key p) as [[]|].
      + exfalso. rewrite Hkey, Hl in Hk. cbn [app] in Hk.
        replace ((l1 ++ c :: l2) ++ [name]) with ((l1 ++ [c]) ++ (l2 ++ [name])) in Hk
          by by rewrite <- !app_assoc.
        by apply key_of_below in Hk; [|destruct l1|destruct l2].
    - exists st. split; [done|]. split; [by destruct (st !! Os.key p) as [[]|]|].
      destruct (Os.dirname p); [done|done]. }
  destruct Hdirs as (st0 & Hprepare & Hnodir & Hfound).
  (* the file *)
  assert (Hopen : ∃ st1 : fs, Os.open_ p append st0 = (Return (), st1)).
  { unfold Os.open_. rewrite Hnul, Hname.
    assert (Py.truthy p = true) as -> by (destruct p; [done|done]).
    cbn [negb]. rewrite Hcomps, removelast_last, Hfound.
    destruct (st0 !! Os.key p) as [[data|]|]; [|done|]; by eexists. }
  destruct Hopen as (st1 & Hopen).
  destruct (file_sink p text append st) as [[[]|e] st'] eqn:Hrun.
  - exists st'. split; [done|]. by apply file_sink_result.
  - apply file_sink_raises in Hrun as [Hrun|(st0' & Hrun & Hrun')]; congruence.
Qed.

Lemma writable_path_is_written_witness :
  writable ({["log" := Dir; "log/agent_output.txt" := File "one" ]}) "log/agent_output.txt"
  = true
  ∧ ∃ st' : fs,
      file_sink "log/agent_output.txt" "two" true
        ({["log" := Dir; "log/agent_output.txt" := File "one" ]})
      = (Return (), st')
      ∧ Os.read "log/agent_output.txt" st'
        = Some (contents ({["log" := Dir; "log/agent_output.txt" := File "one" ]})
                  "log/agent_output.txt" +:+ "two" +:+ terminator true "two").
Proof.
  split; [vm_compute; reflexivity|].
  apply (writable_path_is_written _ "log/agent_output.txt" "two" true).
  vm_compute; reflexivity.
Defined.

Example writable_ex :
  map (writable ({["log" := File "a regular file"; "out" := Dir]}))
    ["notes.txt"; "a/b/notes.txt"; "/tmp/notes.txt"; "log/notes.txt"; "out"; "out/";
     "./notes.txt"; "a/../notes.txt"; ""; "."]
  = [true; true; true; false; false; false; false; false; false; false].
Proof. vm_compute. reflexivity. Qed.
